(** * Double Materiality Map (app.py): a shallow embedding and its properties

    The development follows the layout of [app.py]:
    - [PyStr]: the string methods the module calls ([str.replace],
      [str.split], [str.join], [str.lower], slicing and [range]);
    - [Frame]: the column-oriented table ([pandas.DataFrame]) with the few
      operations used (column membership, column assignment, [empty]);
    - [Plot]: the chart value built by [plotly.express.scatter] and updated
      by [update_traces] / [update_layout];
    - [App]: the module itself: [fallback_data], the start-up load of
      [df_default], [generate_figure], [update_graph], [download_chart].

    Strings are Python [str] values restricted to code points 0..255, one
    [ascii] per code point. *)

From Stdlib Require Import String Ascii List Bool Arith NArith ZArith QArith Lia.
From Stdlib Require Import Numbers.DecimalString.
Import ListNotations.

Close Scope Q_scope.
Open Scope string_scope.

(* ------------------------------------------------------------------ *)
(** ** Python string operations *)

Module PyStr.

(** [str.isspace] on one code point (range 0..255): TAB..CR, FS..US,
    SPACE, NEL (0x85) and NBSP (0xA0). *)
Definition isspace (c : ascii) : bool :=
  let n := nat_of_ascii c in
  (Nat.leb 9 n && Nat.leb n 13) || (Nat.leb 28 n && Nat.leb n 32)
  || Nat.eqb n 133 || Nat.eqb n 160.

(** [s.replace(old, new)] for one-character [old] and [new]. *)
Fixpoint replace_char (old new : ascii) (s : string) : string :=
  match s with
  | EmptyString => EmptyString
  | String c s' =>
      String (if Ascii.eqb c old then new else c) (replace_char old new s')
  end.

Definition is_empty (s : string) : bool :=
  match s with EmptyString => true | _ => false end.

(** [s.split()] : maximal runs of non-whitespace characters.  [cur] is the
    word being read. *)
Fixpoint split_ws_from (cur : string) (s : string) : list string :=
  match s with
  | EmptyString => if is_empty cur then [] else [cur]
  | String c s' =>
      if isspace c
      then (if is_empty cur then split_ws_from EmptyString s'
            else cur :: split_ws_from EmptyString s')
      else split_ws_from (cur ++ String c EmptyString) s'
  end.

Definition split_ws (s : string) : list string :=
  split_ws_from EmptyString s.

(** [s.split(sep)] for a one-character separator: every occurrence splits,
    empty pieces are kept, the result is never empty. *)
Fixpoint split_on_from (sep : ascii) (cur : string) (s : string)
  : list string :=
  match s with
  | EmptyString => [cur]
  | String c s' =>
      if Ascii.eqb c sep
      then cur :: split_on_from sep EmptyString s'
      else split_on_from sep (cur ++ String c EmptyString) s'
  end.

Definition split_on (sep : ascii) (s : string) : list string :=
  split_on_from sep EmptyString s.

(** [sep.join(l)] *)
Definition join (sep : string) (l : list string) : string :=
  String.concat sep l.

(** [range(start, stop, step)] for [step > 0]; at most [stop] elements. *)
Fixpoint range_fuel (fuel start stop step : nat) : list nat :=
  match fuel with
  | O => []
  | S fuel' =>
      if Nat.ltb start stop
      then start :: range_fuel fuel' (start + step) stop step
      else []
  end.

Definition range (start stop step : nat) : list nat :=
  range_fuel stop start stop step.

(** [l[i:j]] for [0 <= i], [0 <= j]: clipped to the list. *)
Definition slice {A} (l : list A) (i j : nat) : list A :=
  firstn (j - i) (skipn i l).

(** [str.lower] on one code point: A..Z and the Latin-1 capitals
    0xC0..0xDE (0xD7, the multiplication sign, excepted). *)
Definition lower_char (c : ascii) : ascii :=
  let n := nat_of_ascii c in
  if (Nat.leb 65 n && Nat.leb n 90)
     || (Nat.leb 192 n && Nat.leb n 222 && negb (Nat.eqb n 215))
  then ascii_of_nat (n + 32) else c.

Fixpoint lower (s : string) : string :=
  match s with
  | EmptyString => EmptyString
  | String c s' => String (lower_char c) (lower s')
  end.

(** Truthiness of a [str]: non-empty. *)
Definition truthy (s : string) : bool := negb (is_empty s).

(** [x or d] for [x : Optional[str]]. *)
Definition or_default (x : option string) (d : string) : string :=
  match x with
  | Some s => if truthy s then s else d
  | None => d
  end.

(** [needle in s] *)
Fixpoint contains (needle s : string) : bool :=
  String.prefix needle s
  || match s with
     | EmptyString => false
     | String _ s' => contains needle s'
     end.

Definition has_char (c : ascii) (s : string) : bool :=
  existsb (Ascii.eqb c) (list_ascii_of_string s).

Definition double_quote : ascii := ascii_of_nat 34.
Definition backslash : ascii := ascii_of_nat 92.

(** [str.isprintable] on one code point (range 0..255). *)
Definition isprintable (c : ascii) : bool :=
  let n := nat_of_ascii c in
  (Nat.leb 32 n && Nat.leb n 126)
  || (Nat.leb 161 n && negb (Nat.eqb n 173)).

Definition hex_digit (n : nat) : ascii :=
  if Nat.ltb n 10 then ascii_of_nat (48 + n) else ascii_of_nat (87 + n).

(** One character of [repr(s)] between the quotes [quote]. *)
Definition repr_char (quote c : ascii) : string :=
  let n := nat_of_ascii c in
  if Ascii.eqb c quote || Ascii.eqb c backslash
  then String backslash (String c EmptyString)
  else if Nat.eqb n 9 then String backslash "t"
  else if Nat.eqb n 10 then String backslash "n"
  else if Nat.eqb n 13 then String backslash "r"
  else if isprintable c then String c EmptyString
  else String backslash
         (String "x" (String (hex_digit (n / 16))
                             (String (hex_digit (n mod 16)) EmptyString))).

(** [repr(s)]: single quotes, or double quotes for a text that holds a
    single quote and no double quote. *)
Definition repr (s : string) : string :=
  let quote :=
    if has_char "'" s && negb (has_char double_quote s)
    then double_quote else "'"%char in
  String quote
         (String.concat EmptyString
                        (map (repr_char quote) (list_ascii_of_string s))
          ++ String quote EmptyString).

(** [str(l)] for a list of [str]. *)
Definition str_of_list (l : list string) : string :=
  "[" ++ String.concat ", " (map repr l) ++ "]".

End PyStr.

(* ------------------------------------------------------------------ *)
(** ** Tables *)

Module Frame.

(** A cell read from a sheet: text, an integer, or a missing value. *)
Inductive cell :=
| Text (s : string)
| Int (z : Z)
| NaN.

(** [str(x)] *)
Definition str (x : cell) : string :=
  match x with
  | Text s => s
  | Int z => NilZero.string_of_int (Z.to_int z)
  | NaN => "nan"
  end.

Definition cell_eqb (a b : cell) : bool :=
  match a, b with
  | Text s, Text t => String.eqb s t
  | Int x, Int y => Z.eqb x y
  | NaN, NaN => true
  | _, _ => false
  end.

(** A [DataFrame]: its columns in order, each a label and its values
    (all of the same length in a frame read from a sheet). *)
Record DataFrame := mkDF { cols : list (string * list cell) }.

Definition columns (df : DataFrame) : list string := map fst (cols df).

(** [name in df.columns] *)
Definition has_column (df : DataFrame) (name : string) : bool :=
  existsb (String.eqb name) (columns df).

(** [set(names).issubset(df.columns)] *)
Definition issubset (names : list string) (df : DataFrame) : bool :=
  forallb (has_column df) names.

(** [df[name]]: [None] stands for the [KeyError]. *)
Fixpoint lookup (name : string) (cs : list (string * list cell))
  : option (list cell) :=
  match cs with
  | [] => None
  | (n, v) :: cs' => if String.eqb name n then Some v else lookup name cs'
  end.

Definition column (df : DataFrame) (name : string) : option (list cell) :=
  lookup name (cols df).

(** [df[name] = values] for a label already present: the column is
    replaced where it stands. *)
Fixpoint assign (name : string) (values : list cell)
         (cs : list (string * list cell)) : list (string * list cell) :=
  match cs with
  | [] => []
  | (n, v) :: cs' =>
      if String.eqb name n then (n, values) :: cs'
      else (n, v) :: assign name values cs'
  end.

Definition set_column (df : DataFrame) (name : string) (values : list cell)
  : DataFrame :=
  mkDF (assign name values (cols df)).

(** [len(df)] *)
Definition nrows (df : DataFrame) : nat :=
  match cols df with
  | [] => 0
  | (_, v) :: _ => length v
  end.

(** [df.empty]: no column or no row. *)
Definition empty (df : DataFrame) : bool :=
  match cols df with
  | [] => true
  | (_, v) :: _ => Nat.eqb (length v) 0
  end.

End Frame.

(* ------------------------------------------------------------------ *)
(** ** Exceptions *)

(** A raised exception: its class and [str(e)]. *)
Record Exception := mkExn { exn_class : string; exn_str : string }.

Inductive result (A : Type) :=
| Ok (a : A)
| Raise (e : Exception).
Arguments Ok {A} a.
Arguments Raise {A} e.

(* ------------------------------------------------------------------ *)
(** ** Charts *)

Module Plot.
Import Frame.

Record Font := mkFont
  { font_size : option Z; font_family : option string;
    font_color : option string }.

Record Marker := mkMarker
  { marker_size : option Z; marker_line_width : option Z;
    marker_opacity : option Q }.

(** One scatter trace: the points of one colour group. *)
Record Trace := mkTrace
  { name : string;
    mode : string;
    x : list cell;
    y : list cell;
    hovertext : list cell;
    marker : Marker }.

Record Axis := mkAxis
  { axis_title : option string;
    range : option (list Q);
    fixedrange : option bool;
    tickmode : option string;
    tickvals : option (list Z);
    ticktext : option (list string);
    gridcolor : option string;
    gridwidth : option Q;
    showgrid : option bool;
    scaleanchor : option string;
    layer : option string }.

Record Margin := mkMargin { ml : Z; mr : Z; mt : Z; mb : Z }.

Record Legend := mkLegend
  { legend_font : option Font;
    legend_title_text : option string;
    legend_title_font : option Font;
    legend_title_side : option string;
    legend_x : option Q;
    legend_xanchor : option string;
    legend_y : option Q;
    legend_yanchor : option string }.

Record Layout := mkLayout
  { title : string;
    template : option string;
    autosize : option bool;
    height : option Z;
    width : option Z;
    uirevision : option string;
    margin : option Margin;
    font : option Font;
    title_font : option Font;
    title_x : option Q;
    legend : Legend;
    xaxis : Axis;
    yaxis : Axis }.

Record Figure := mkFigure { data : list Trace; layout : Layout }.

Definition no_marker : Marker := mkMarker None None None.

Definition px_axis (label : option string) : Axis :=
  mkAxis label None None None None None None None None None None.

Definition px_legend (label : option string) : Legend :=
  mkLegend None label None None None None None None.

Definition px_layout (title_text : string) (xl yl cl : option string)
  : Layout :=
  mkLayout title_text None None None None None None None None None
           (px_legend cl) (px_axis xl) (px_axis yl).

(** The values of a column in order of first appearance. *)
Fixpoint distinct (seen : list cell) (vals : list cell) : list cell :=
  match vals with
  | [] => []
  | v :: vals' =>
      if existsb (cell_eqb v) seen then distinct seen vals'
      else v :: distinct (v :: seen) vals'
  end.

(** The entries of [vals] on the rows whose key is [k]. *)
Definition rows_of (keys : list cell) (k : cell) (vals : list cell)
  : list cell :=
  map snd (filter (fun p => cell_eqb (fst p) k) (combine keys vals)).

(** The [ValueError] of plotly express for an argument that names no
    column of the frame. *)
Definition missing_column (field : string) (labels : list string)
           (argument : string) : Exception :=
  mkExn "ValueError"
        ("Value of '" ++ field
         ++ "' is not the name of a column in 'data_frame'. Expected one of "
         ++ PyStr.str_of_list labels ++ " but received: " ++ argument
         ++ (if String.eqb argument "index"
             then String (ascii_of_nat 10)
                         " To use the index, pass it in directly as `df.index`."
             else EmptyString)).

(** [px.scatter(df, x=, y=, color=, hover_name=, title=)] for a frame read
    from a sheet, with a colour column of dtype [object] (text values, or
    no value at all): a [ValueError] when a named column is absent, the
    arguments being looked up in the order [x], [y], [hover_name], [color];
    otherwise one [markers] trace per distinct colour value, in order of
    first appearance, holding the rows of that value. *)
Definition scatter (df : DataFrame) (xcol ycol color hover_name : string)
           (title_text : string) : result Figure :=
  match column df xcol with
  | None => Raise (missing_column "x" (columns df) xcol)
  | Some xs =>
  match column df ycol with
  | None => Raise (missing_column "y" (columns df) ycol)
  | Some ys =>
  match column df hover_name with
  | None => Raise (missing_column "hover_name" (columns df) hover_name)
  | Some hs =>
  match column df color with
  | None => Raise (missing_column "color" (columns df) color)
  | Some keys =>
      Ok (mkFigure
            (map (fun k =>
                    mkTrace (str k) "markers" (rows_of keys k xs)
                            (rows_of keys k ys) (rows_of keys k hs)
                            no_marker)
                 (distinct [] keys))
            (px_layout title_text (Some xcol) (Some ycol) (Some color)))
  end end end end.

(** [px.scatter(title=...)]: no data, one trace without points. *)
Definition scatter_title_only (title_text : string) : Figure :=
  mkFigure [mkTrace "" "markers" [] [] [] no_marker]
           (px_layout title_text None None None).

(** [fig.update_traces(marker=m, selector=dict(mode=sel))] *)
Definition update_traces (m : Marker) (sel : string) (fig : Figure)
  : Figure :=
  mkFigure
    (map (fun tr =>
            if String.eqb (mode tr) sel
            then mkTrace (name tr) (mode tr) (x tr) (y tr) (hovertext tr) m
            else tr)
         (data fig))
    (layout fig).

(** What the hyperproperty on charts observes. *)
Definition trace_count (fig : Figure) : nat := length (data fig).
Definition point_counts (fig : Figure) : list nat :=
  map (fun tr => length (x tr)) (data fig).

Record Structure := mkStructure
  { s_title : string;
    s_xrange : option (list Q);
    s_yrange : option (list Q);
    s_trace_count : nat;
    s_point_counts : list nat }.

Definition structure (fig : Figure) : Structure :=
  mkStructure (title (layout fig)) (range (xaxis (layout fig)))
              (range (yaxis (layout fig))) (trace_count fig)
              (point_counts fig).

End Plot.

(* ------------------------------------------------------------------ *)
(** ** The application module *)

Module App.
Import Frame.

(** [fallback_data] (lines 20-32). *)
Definition fallback_data : DataFrame :=
  mkDF
    [ ("Name of IRO",
       map Text
         [ "Energy Efficiency"; "Water Use"; "Labor Practices";
           "GHG Emissions"; "Diversity & Inclusion"; "Product Safety";
           "Supply Chain Ethics"; "Board Independence";
           "Climate Risk Strategy"; "Customer Privacy" ]);
      ("Impact", map Int [4; 3; 5; 5; 2; 4; 3; 1; 5; 2]%Z);
      ("Risk", map Int [5; 2; 4; 5; 3; 3; 2; 1; 5; 4]%Z);
      ("Sub-Topic",
       map Text
         [ "Environmental"; "Environmental"; "Social"; "Environmental";
           "Social"; "Social"; "Social"; "Governance"; "Environmental";
           "Governance" ]) ].

Definition required_cols : list string :=
  ["Name of IRO"; "Impact"; "Risk"; "Sub-Topic"].

(** Lines 36-42.  [template_read] is the outcome of
    [pd.read_excel(TEMPLATE_PATH)]; the result is the table bound to
    [df_default] and the lines printed. *)
Definition load_default (template_read : result DataFrame)
  : DataFrame * list string :=
  match template_read with
  | Ok df =>
      if empty df || negb (issubset required_cols df)
      then (fallback_data, [])
      else (df, [])
  | Raise e =>
      (fallback_data, ["Failed to load Excel file: " ++ exn_str e])
  end.

(** [wrap_label] (lines 48-53). *)
Definition wrap_label (text : cell) : string :=
  let clean := PyStr.replace_char "_" " " (str text) in
  let words := PyStr.split_ws clean in
  let lines :=
    map (fun i => PyStr.join " " (PyStr.slice words i (i + 4)))
        (PyStr.range 0 (length words) 4) in
  PyStr.join "<br>" lines.

(** What [apply] stores for a cell: the [str] that [wrap_label] returns. *)
Definition wrap_cell (c : cell) : cell := Text (wrap_label c).

(** [df["Sub-Topic"] = df["Sub-Topic"].apply(wrap_label)] under the guard
    of line 47: the table after the assignment. *)
Definition wrap_sub_topics (df : DataFrame) : DataFrame :=
  if has_column df "Sub-Topic" then
    match column df "Sub-Topic" with
    | Some labels =>
        set_column df "Sub-Topic" (map wrap_cell labels)
    | None => df
    end
  else df.

Definition title_of (company_name : string) : string :=
  if PyStr.truthy company_name
  then "<b>" ++ company_name ++ " : Double Materiality Map</b>"
  else "<b>Double Materiality Map</b>".

Definition ticks : list Z := [1; 2; 3; 4; 5]%Z.
Definition tick_labels : list string := ["1"; "2"; "3"; "4"; "5"].

Definition axis_range : list Q := [0; 5.1]%Q.

(** [fig.update_layout(...)] of lines 74-117: the listed properties are
    set, the title built by [px.scatter] is kept. *)
Definition styled_layout (lay : Plot.Layout) : Plot.Layout :=
  Plot.mkLayout
    (Plot.title lay)
    (Some "simple_white")
    (Some false)
    (Some 620%Z)
    (Some 850%Z)
    (Some "static")
    (Some (Plot.mkMargin 40 40 60 60))
    (Some (Plot.mkFont (Some 18%Z) (Some "Arial") (Some "#333")))
    (Some (Plot.mkFont (Some 20%Z) (Some "Arial") (Some "#333")))
    (Some 0.25%Q)
    (Plot.mkLegend
       (Some (Plot.mkFont (Some 18%Z) None None))
       (Some "<b>Sub-Topic<br>")
       (Some (Plot.mkFont (Some 19%Z) None None))
       (Some "top")
       (Some 1.1%Q) (Some "left") (Some 1.0%Q) (Some "top"))
    (Plot.mkAxis
       (Some "Financial Materiality (Risk or Opportunity)")
       (Some axis_range) (Some true) (Some "array")
       (Some ticks) (Some tick_labels)
       (Some "lightgray") (Some 0.5%Q) (Some true)
       (Some "y") (Some "below traces"))
    (Plot.mkAxis
       (Some "Impact Materiality")
       (Some axis_range) (Some true) (Some "array")
       (Some ticks) (Some tick_labels)
       (Some "lightgray") (Some 1%Q) (Some true)
       None (Some "below traces")).

Definition styled_marker : Plot.Marker :=
  Plot.mkMarker (Some 12%Z) (Some 0%Z) (Some 1.0%Q).

(** [generate_figure] (lines 45-119).  The table argument is modified in
    place by line 55, so the call yields the table as it stands afterwards
    next to the chart (or the exception of [px.scatter]). *)
Definition generate_figure (df : DataFrame) (company_name : string)
  : result Plot.Figure * DataFrame :=
  let df' := wrap_sub_topics df in
  let title_text := title_of company_name in
  match Plot.scatter df' "Risk" "Impact" "Sub-Topic" "Name of IRO"
                     title_text with
  | Raise e => (Raise e, df')
  | Ok fig =>
      let fig1 := Plot.update_traces styled_marker "markers" fig in
      (Ok (Plot.mkFigure (Plot.data fig1)
                         (styled_layout (Plot.layout fig1))),
       df')
  end.

(** The process: the table object that the global [df_default] names.
    ([fallback_data] is the same object when the fallback is taken; the
    module does not read that name again.) *)
Record Process := mkProcess { df_default : DataFrame }.

(** [generate_figure(df_default, name)]: the shared object is the
    argument, so its modification stays in the process. *)
Definition figure_of_default (p : Process) (company_name : string)
  : result Plot.Figure * Process :=
  let (res, df') := generate_figure (df_default p) company_name in
  (res, mkProcess df').

(** Import of the module: the load, the layout's figure (line 229) and
    [test_fig] (line 271).  An exception aborts the import. *)
Definition import_module (template_read : result DataFrame)
  : result (Plot.Figure * Process) :=
  let p0 := mkProcess (fst (load_default template_read)) in
  match figure_of_default p0 "" with
  | (Raise e, _) => Raise e
  | (Ok layout_fig, p1) =>
      match figure_of_default p1 "" with
      | (Raise e, _) => Raise e
      | (Ok _, p2) => Ok (layout_fig, p2)
      end
  end.

Definition missing_columns_title : string :=
  "Missing required columns: Name of IRO, Impact, Risk, Sub-Topic".

Definition unpack_error (n : nat) : Exception :=
  mkExn "ValueError"
        (if Nat.ltb n 2
         then "not enough values to unpack (expected 2, got 1)"
         else "too many values to unpack (expected 2)").

Section Handlers.

(** [base64.b64decode] and [pd.read_excel(io.BytesIO(..))]. *)
Variable b64decode : string -> result (list Byte.byte).
Variable read_excel : list Byte.byte -> result DataFrame.

(** The body of the [try] (lines 251-255). *)
Definition try_body (decoded : list Byte.byte) (company_name : option string)
  : result Plot.Figure :=
  match read_excel decoded with
  | Raise e => Raise e
  | Ok df =>
      if negb (issubset required_cols df)
      then Ok (Plot.scatter_title_only missing_columns_title)
      else fst (generate_figure df (PyStr.or_default company_name ""))
  end.

(** [update_graph] (lines 244-257). *)
Definition update_graph (p : Process) (contents : option string)
           (company_name : option string) (filename : option string)
  : result Plot.Figure * Process :=
  match contents with
  | None => figure_of_default p (PyStr.or_default company_name "")
  | Some c =>
      match PyStr.split_on "," c with
      | [content_type; content_string] =>
          match b64decode content_string with
          | Raise e => (Raise e, p)
          | Ok decoded =>
              match try_body decoded company_name with
              | Ok fig => (Ok fig, p)
              | Raise e =>
                  (Ok (Plot.scatter_title_only
                         ("Error reading file: " ++ exn_str e)), p)
              end
          end
      | parts => (Raise (unpack_error (length parts)), p)
      end
  end.

End Handlers.

(** [datetime.now()]: the calendar fields. *)
Record DateTime := mkDate { year : N; month : N; day : N }.

Definition decimal (n : N) : string :=
  NilZero.string_of_uint (N.to_uint n).

Fixpoint zeros (n : nat) : string :=
  match n with
  | O => EmptyString
  | S n' => String "0" (zeros n')
  end.

(** A decimal number padded with zeros on the left to [width]. *)
Definition zero_padded (width : nat) (n : N) : string :=
  let d := decimal n in
  zeros (width - String.length d) ++ d.

(** [d.strftime('%Y%m%d')]: the year on four digits (for years from 1000
    on, where every C library agrees), month and day on two. *)
Definition strftime_Ymd (d : DateTime) : string :=
  zero_padded 4 (year d) ++ zero_padded 2 (month d)
              ++ zero_padded 2 (day d).

(** The call [fig.to_image(format=, width=, height=, scale=)] that the
    download will run. *)
Record ImageCall := mkImageCall
  { image_fig : Plot.Figure;
    image_format : string;
    image_width : Z;
    image_height : Z;
    image_scale : Z }.

(** What a download carries: the image asked for and the file name. *)
Record Download := mkDownload { writer : ImageCall; filename : string }.

(** A callable handed to [dcc.send_bytes] as the writer: a function of no
    argument (its qualified name kept for the error text), or a function of
    the one argument, the [BytesIO] to write to. *)
Inductive Writer :=
| NoArgument (qualname : string) (body : ImageCall)
| OneArgument (body : ImageCall).

(** [dcc.send_bytes(src, filename)] for a callable [src]: the writer is
    called with the [BytesIO] as its one argument. *)
Definition send_bytes (src : Writer) (name : string) : result Download :=
  match src with
  | OneArgument body => Ok (mkDownload body name)
  | NoArgument qualname _ =>
      Raise (mkExn "TypeError"
                   (qualname
                    ++ "() takes 0 positional arguments but 1 was given"))
  end.

Definition export_filename (company_name : option string) (now : DateTime)
  : string :=
  "materiality_map_"
    ++ PyStr.replace_char " " "_"
         (PyStr.lower (PyStr.or_default company_name "company"))
    ++ "_" ++ strftime_Ymd now ++ ".png".

(** The [lambda: fig.to_image(format="png", width=900, height=600,
    scale=2)] of line 268. *)
Definition image_writer (fig : Plot.Figure) : Writer :=
  NoArgument "download_chart.<locals>.<lambda>"
             (mkImageCall fig "png" 900 600 2).

(** [download_chart] (lines 265-268); [now] is [datetime.now()]. *)
Definition download_chart (p : Process) (now : DateTime)
           (n_clicks : option Z) (company_name : option string)
  : result Download * Process :=
  match figure_of_default p (PyStr.or_default company_name "") with
  | (Raise e, p') => (Raise e, p')
  | (Ok fig, p') =>
      (send_bytes (image_writer fig) (export_filename company_name now), p')
  end.

(** The processes that exist: the one left by the import, and those that
    render and export requests lead to. *)
Inductive reachable (b64decode : string -> result (list Byte.byte))
          (read_excel : list Byte.byte -> result DataFrame)
  : Process -> Prop :=
| after_import template_read layout_fig p :
    import_module template_read = Ok (layout_fig, p) ->
    reachable b64decode read_excel p
| after_render p contents company_name name :
    reachable b64decode read_excel p ->
    reachable b64decode read_excel
              (snd (update_graph b64decode read_excel p contents
                                 company_name name))
| after_export p now n_clicks company_name :
    reachable b64decode read_excel p ->
    reachable b64decode read_excel
              (snd (download_chart p now n_clicks company_name)).

End App.

(* ------------------------------------------------------------------ *)
(** ** The properties, in the words of the specification *)

Module Spec.
Import Frame.

(** Words grouped into lines of four; the last line takes what is left. *)
Fixpoint lines_of_four (words : list string) : list (list string) :=
  match words with
  | [] => []
  | a :: b :: c :: d :: rest => [a; b; c; d] :: lines_of_four rest
  | short => [short]
  end.

(** Underscores become spaces, the words are put four to a line, the
    lines are separated by a line break. *)
Definition wrapped (label : string) : string :=
  String.concat "<br>"
    (map (String.concat " ")
         (lines_of_four
            (PyStr.split_ws (PyStr.replace_char "_" " " label)))).


Definition digit (n : N) : ascii := ascii_of_N (48 + n mod 10).

Definition digits2 (n : N) : string :=
  String (digit (n / 10)) (String (digit n) EmptyString).

Definition digits4 (n : N) : string :=
  String (digit (n / 1000)) (String (digit (n / 100)) (digits2 n)).

(** A date as YYYYMMDD. *)
Definition yyyymmdd (d : App.DateTime) : string :=
  digits4 (App.year d) ++ digits2 (App.month d) ++ digits2 (App.day d).

(** A date with a year of four digits (the length of the month aside). *)
Definition calendar_date (d : App.DateTime) : Prop :=
  (1000 <= App.year d <= 9999)%N /\ (1 <= App.month d <= 12)%N
  /\ (1 <= App.day d <= 31)%N.

(** The bundled template is absent or unreadable, empty, or lacks one of
    the required columns. *)
Inductive unusable : result DataFrame -> Prop :=
| unreadable e : unusable (Raise e)
| without_rows df : empty df = true -> unusable (Ok df)
| without_column df c :
    In c App.required_cols -> has_column df c = false -> unusable (Ok df).

(** A title that names exactly the required columns that [df] lacks. *)
Definition lists_exactly_missing (title : string) (df : DataFrame) : Prop :=
  forall c, In c App.required_cols ->
            (PyStr.contains c title = true <-> has_column df c = false).

(** Contents in data-URI form: a media type and a payload around the one
    comma. *)
Definition data_uri (mime payload : string) : string :=
  mime ++ "," ++ payload.

Definition comma_free (s : string) : Prop := PyStr.has_char "," s = false.

(** No row in any column. *)
Definition zero_rows (df : DataFrame) : Prop :=
  Forall (fun c => snd c = []) (cols df).

(** A label that [wrap_label] maps to a text it leaves alone. *)
Definition settled (c : cell) : Prop :=
  App.wrap_label (Text (App.wrap_label c)) = App.wrap_label c.

Definition settled_labels (df : DataFrame) : Prop :=
  forall labels, column df "Sub-Topic" = Some labels ->
                 Forall settled labels.

(** A label that is already the text [wrap_label] gives for it. *)
Definition fixed_labels (df : DataFrame) : Prop :=
  forall labels, column df "Sub-Topic" = Some labels ->
                 Forall (fun c => Text (App.wrap_label c) = c) labels.

Definition structure_of (res : result Plot.Figure) : option Plot.Structure :=
  match res with
  | Ok fig => Some (Plot.structure fig)
  | Raise _ => None
  end.

(** [g] sends different values of [l] to different values. *)
Definition injective_on (g : cell -> cell) (l : list cell) : Prop :=
  forall a b, In a l -> In b l -> g a = g b -> a = b.

(** No two labels that [wrap_label] keeps apart are made the same by
    wrapping them once more. *)
Definition unmerged_labels (df : DataFrame) : Prop :=
  forall labels,
    column df "Sub-Topic" = Some labels ->
    forall a b,
      In a labels -> In b labels ->
      App.wrap_label (App.wrap_cell a) = App.wrap_label (App.wrap_cell b) ->
      App.wrap_label a = App.wrap_label b.

(** A second call on the same table object shows the structure of the
    first. *)
Definition repeatable (df : DataFrame) (company_name : string) : Prop :=
  let (first, df') := App.generate_figure df company_name in
  structure_of (fst (App.generate_figure df' company_name))
  = structure_of first.

(** The table that [df_default] names is the same before and after. *)
Definition untouched (before after : App.Process) : Prop :=
  App.df_default after = App.df_default before.

End Spec.

(* ------------------------------------------------------------------ *)
(** ** Concrete inputs used by the examples *)

(** An instance of [base64.b64decode] for the examples: the standard
    alphabet, characters outside it skipped, reading stopped at the first
    padding character. *)
Module Base64.

Definition value (c : ascii) : option N :=
  let n := N_of_ascii c in
  if N.leb 65 n && N.leb n 90 then Some (n - 65)%N
  else if N.leb 97 n && N.leb n 122 then Some (n - 71)%N
  else if N.leb 48 n && N.leb n 57 then Some (n + 4)%N
  else if N.eqb n 43 then Some 62%N
  else if N.eqb n 47 then Some 63%N
  else None.

Fixpoint sextets (s : string) : list N :=
  match s with
  | EmptyString => []
  | String c s' =>
      if Ascii.eqb c "=" then []
      else match value c with
           | Some v => v :: sextets s'
           | None => sextets s'
           end
  end.

Definition pads (s : string) : nat :=
  length (filter (Ascii.eqb "=") (list_ascii_of_string s)).

Definition octet (n : N) : Byte.byte :=
  match Byte.of_N (n mod 256) with
  | Some b => b
  | None => Byte.x00
  end.

Fixpoint octets (l : list N) : option (list Byte.byte) :=
  match l with
  | [] => Some []
  | [_] => None
  | [a; b] => Some [octet (a * 4 + b / 16)]
  | [a; b; c] =>
      Some [octet (a * 4 + b / 16); octet (b * 16 + c / 4)]
  | a :: b :: c :: d :: rest =>
      option_map
        (fun tl => octet (a * 4 + b / 16) :: octet (b * 16 + c / 4)
                         :: octet (c * 64 + d) :: tl)
        (octets rest)
  end.

Definition b64decode (s : string) : result (list Byte.byte) :=
  let l := sextets s in
  match octets l with
  | None =>
      Raise (mkExn "binascii.Error" "Invalid base64-encoded string")
  | Some bs =>
      if Nat.eqb (length l mod 4) 0 || Nat.leb 4 (length l mod 4 + pads s)
      then Ok bs
      else Raise (mkExn "binascii.Error" "Incorrect padding")
  end.

End Base64.

Module Samples.
Import Frame.

(** A sheet with every required column but [Risk]. *)
Definition without_risk : DataFrame :=
  mkDF [ ("Name of IRO", [Text "Water Use"]);
         ("Impact", [Int 3]);
         ("Sub-Topic", [Text "Environmental"]) ].

(** A sheet with the four headers and no row under them. *)
Definition headers_only : DataFrame :=
  mkDF [ ("Name of IRO", []); ("Impact", []); ("Risk", []);
         ("Sub-Topic", []) ].

(** Two labels that differ after one wrapping and agree after two. *)
Definition colliding : DataFrame :=
  mkDF [ ("Name of IRO", [Text "first"; Text "second"]);
         ("Impact", [Int 1; Int 2]);
         ("Risk", [Int 3; Int 4]);
         ("Sub-Topic", [Text "a b c d e f"; Text "a b c d<br>e<br>f"]) ].

(** A template whose one label has seven words. *)
Definition seven_words : DataFrame :=
  mkDF [ ("Name of IRO", [Text "Flood exposure"]);
         ("Impact", [Int 4]);
         ("Risk", [Int 2]);
         ("Sub-Topic", [Text "Climate_Risk_And_Water_Use_In_Operations"]) ].

(** A reader for the examples: the first byte picks the sheet, anything
    else is not a workbook. *)
Definition read_sample (bs : list Byte.byte) : result DataFrame :=
  match bs with
  | Byte.x31 :: _ => Ok without_risk
  | Byte.x32 :: _ => Ok headers_only
  | _ => Raise (mkExn "BadZipFile" "File is not a zip file")
  end.

(** The process that the import leaves with that template: the label
    has gone through [wrap_label] twice (lines 229 and 271). *)
Definition imported_seven_words : App.Process :=
  App.mkProcess
    (App.wrap_sub_topics (App.wrap_sub_topics seven_words)).

Definition xlsx_mime : string :=
  "data:application/vnd.openxmlformats-officedocument"
    ++ ".spreadsheetml.sheet;base64".

Definition started : App.Process := App.mkProcess App.fallback_data.

Definition march_15_2024 : App.DateTime := App.mkDate 2024 3 15.

End Samples.

(* ------------------------------------------------------------------ *)
(** ** Requests in sequence *)

(** The two callbacks of the module (lines 237-243 and 259-264) answer the
    events of the page one at a time, each on the process as the one before
    left it. *)
Module Session.
Import Frame.

Inductive Request :=
| Render (contents : option string) (company_name name : option string)
| Export (now : App.DateTime) (n_clicks : option Z)
         (company_name : option string).

Section Serve.

Variable b64decode : string -> result (list Byte.byte).
Variable read_excel : list Byte.byte -> result DataFrame.

(** The process after one request. *)
Definition handle (p : App.Process) (rq : Request) : App.Process :=
  match rq with
  | Render contents company_name name =>
      snd (App.update_graph b64decode read_excel p contents company_name name)
  | Export now n_clicks company_name =>
      snd (App.download_chart p now n_clicks company_name)
  end.

(** The process after a list of requests. *)
Definition serve (p : App.Process) (requests : list Request) : App.Process :=
  fold_left handle requests p.

End Serve.

End Session.

(** Vocabulary of the further properties. *)
Module Shape.
Import Frame.

(** The number of occurrences of a character. *)
Fixpoint occurrences (c : ascii) (s : string) : nat :=
  match s with
  | EmptyString => 0
  | String k s' => (if Ascii.eqb k c then 1 else 0) + occurrences c s'
  end.


(** A text made of whitespace and underscores only. *)
Definition blank (s : string) : bool :=
  forallb (fun c => PyStr.isspace c || Ascii.eqb c "_")
          (list_ascii_of_string s).

(** A text without whitespace and without underscore. *)
Definition unbroken (s : string) : bool :=
  forallb (fun c => negb (PyStr.isspace c || Ascii.eqb c "_"))
          (list_ascii_of_string s).

(** [str.isupper] restricted to the letters A..Z. *)
Definition ascii_capital (c : ascii) : bool :=
  let n := nat_of_ascii c in Nat.leb 65 n && Nat.leb n 90.


(** Two tables with the same four required columns. *)
Definition same_required (df1 df2 : DataFrame) : Prop :=
  forall c, In c App.required_cols -> column df1 c = column df2 c.

(** The fallback sheet with its columns in another order and one column
    more. *)
Definition annotated_fallback : DataFrame :=
  mkDF (("Notes", map Text ["a"; "b"; "c"; "d"; "e"; "f"; "g"; "h"; "i"; "j"])
          :: rev (cols App.fallback_data)).

End Shape.

(* ------------------------------------------------------------------ *)
(** * Properties *)

(** ** Label wrapping *)

Lemma range_fuel_done fuel start stop step :
  stop <= start -> PyStr.range_fuel fuel start stop step = [].
Proof.
  intros Hle. destruct fuel as [|fuel]; simpl; [reflexivity|].
  destruct (Nat.ltb_spec start stop); [lia | reflexivity].
Qed.

Lemma range_fuel_step fuel start stop step :
  start < stop ->
  PyStr.range_fuel (S fuel) start stop step
  = start :: PyStr.range_fuel fuel (start + step) stop step.
Proof.
  intros Hlt. simpl.
  destruct (Nat.ltb_spec start stop); [reflexivity | lia].
Qed.

Lemma slice_after_prefix {A} (pre ws : list A) k :
  PyStr.slice (pre ++ ws) (length pre) (length pre + k) = firstn k ws.
Proof.
  unfold PyStr.slice.
  replace (length pre + k - length pre) with k by lia.
  now rewrite skipn_app, skipn_all, Nat.sub_diag.
Qed.

(** A last line of one to three words. *)
Lemma comprehension_short_line (pre ws : list string) fuel :
  1 <= length ws <= 3 -> length ws <= fuel ->
  map (fun i => PyStr.slice (pre ++ ws) i (i + 4))
      (PyStr.range_fuel fuel (length pre) (length pre + length ws) 4)
  = [ws].
Proof.
  intros Hlen Hfuel.
  destruct fuel as [|fuel]; [lia|].
  rewrite range_fuel_step by lia.
  rewrite range_fuel_done by lia.
  cbn [map]. rewrite slice_after_prefix.
  now rewrite firstn_all2 by lia.
Qed.

(** The comprehension of line 52, started anywhere in the list of words,
    cuts what follows into lines of four. *)
Lemma comprehension_lines_of_four n :
  forall (pre ws : list string) fuel,
    length ws <= n -> length ws <= fuel ->
    map (fun i => PyStr.slice (pre ++ ws) i (i + 4))
        (PyStr.range_fuel fuel (length pre) (length pre + length ws) 4)
    = Spec.lines_of_four ws.
Proof.
  induction n as [|n IH]; intros pre ws fuel Hn Hfuel.
  - destruct ws; [|simpl in Hn; lia].
    now rewrite range_fuel_done by (simpl; lia).
  - destruct ws as [|a [|b [|c [|d rest]]]];
      try (apply comprehension_short_line; [simpl; lia | exact Hfuel]).
    + now rewrite range_fuel_done by (simpl; lia).
    + destruct fuel as [|fuel]; [simpl in Hfuel; lia|].
      rewrite range_fuel_step by (simpl; lia).
      cbn [map]. rewrite slice_after_prefix.
      change (Spec.lines_of_four (a :: b :: c :: d :: rest))
        with ([a; b; c; d] :: Spec.lines_of_four rest).
      f_equal.
      specialize (IH (pre ++ [a; b; c; d])%list rest fuel).
      rewrite <- app_assoc, length_app in IH. simpl in IH.
      replace (length pre + length (a :: b :: c :: d :: rest))
        with (length pre + 4 + length rest) by (simpl; lia).
      apply IH; simpl in *; lia.
Qed.

Lemma wrap_label_lines (words : list string) :
  map (fun i => PyStr.slice words i (i + 4))
      (PyStr.range 0 (length words) 4)
  = Spec.lines_of_four words.
Proof.
  unfold PyStr.range.
  exact (comprehension_lines_of_four (length words) [] words (length words)
           (le_n _) (le_n _)).
Qed.

(** Every line holds one to four words, every line but the last holds four,
    and the lines put end to end are the words. *)
Lemma lines_of_four_shape n :
  forall words, length words <= n ->
    concat (Spec.lines_of_four words) = words
    /\ Forall (fun line => 1 <= length line <= 4) (Spec.lines_of_four words)
    /\ Forall (fun line => length line = 4)
              (removelast (Spec.lines_of_four words)).
Proof.
  induction n as [|n IH]; intros words Hn.
  - destruct words; [|simpl in Hn; lia]. simpl. auto.
  - destruct words as [|a [|b [|c [|d rest]]]];
      try (simpl; repeat split; repeat constructor; simpl; lia).
    destruct (IH rest) as (Hc & Hall & Hfull); [simpl in Hn; lia|].
    change (Spec.lines_of_four (a :: b :: c :: d :: rest))
      with ([a; b; c; d] :: Spec.lines_of_four rest).
    repeat split.
    + simpl. now rewrite Hc.
    + constructor; [simpl; lia | exact Hall].
    + destruct (Spec.lines_of_four rest) eqn:E; [constructor|].
      change (removelast ([a; b; c; d] :: l :: l0))
        with ([a; b; c; d] :: removelast (l :: l0)).
      constructor; [reflexivity | exact Hfull].
Qed.


(** ** Tables: lookup and assignment *)

Section FrameFacts.
Import Frame.

Lemma lookup_assign name values cs other :
  lookup other (assign name values cs)
  = if String.eqb other name
    then option_map (fun _ => values) (lookup name cs)
    else lookup other cs.
Proof.
  induction cs as [|[k w] cs IH]; simpl.
  - now destruct (String.eqb other name).
  - destruct (String.eqb_spec name k) as [->|Hnk]; simpl.
    + now destruct (String.eqb_spec other k).
    + rewrite IH.
      destruct (String.eqb_spec other k) as [->|Hok];
        destruct (String.eqb_spec k name) as [->|_];
        try congruence; reflexivity.
Qed.

Lemma labels_assign name values cs :
  map fst (assign name values cs) = map fst cs.
Proof.
  induction cs as [|[k w] cs IH]; simpl; [reflexivity|].
  destruct (String.eqb_spec name k); simpl; congruence.
Qed.

Lemma assign_twice name v1 v2 cs :
  assign name v2 (assign name v1 cs) = assign name v2 cs.
Proof.
  induction cs as [|[k w] cs IH]; simpl; [reflexivity|].
  destruct (String.eqb_spec name k) as [->|Hnk]; simpl.
  - now rewrite String.eqb_refl.
  - destruct (String.eqb_spec name k); [congruence|]. now rewrite IH.
Qed.

Lemma assign_same name values cs :
  lookup name cs = Some values -> assign name values cs = cs.
Proof.
  induction cs as [|[k w] cs IH]; simpl; [reflexivity|].
  destruct (String.eqb_spec name k) as [->|Hnk]; intros H.
  - congruence.
  - now rewrite IH.
Qed.

Lemma length_assign name values cs :
  length (assign name values cs) = length cs.
Proof.
  induction cs as [|[k w] cs IH]; simpl; [reflexivity|].
  destruct (String.eqb name k); simpl; congruence.
Qed.

Lemma has_column_lookup df name :
  has_column df name = true <-> exists v, column df name = Some v.
Proof.
  unfold has_column, column, columns. destruct df as [cs]. simpl.
  induction cs as [|[k w] cs IH]; simpl.
  - split; [discriminate | intros [v H]; discriminate].
  - destruct (String.eqb_spec name k); simpl.
    + split; eauto.
    + exact IH.
Qed.

Lemma lacks_column_lookup df name :
  has_column df name = false <-> column df name = None.
Proof.
  destruct (has_column df name) eqn:E.
  - apply has_column_lookup in E. destruct E as [v ->].
    split; discriminate.
  - split; [|reflexivity]. intros _.
    destruct (column df name) eqn:C; [|reflexivity].
    assert (has_column df name = true) by (apply has_column_lookup; eauto).
    congruence.
Qed.

Lemma issubset_forall names df :
  issubset names df = true
  <-> forall c, In c names -> has_column df c = true.
Proof. unfold issubset. apply forallb_forall. Qed.

End FrameFacts.

(** ** The figure builder *)

Section FigureFacts.
Import Frame.

Lemma column_wrap_sub_topics df name :
  column (App.wrap_sub_topics df) name
  = if String.eqb name "Sub-Topic"
    then option_map (map App.wrap_cell) (column df name)
    else column df name.
Proof.
  unfold App.wrap_sub_topics.
  destruct (has_column df "Sub-Topic") eqn:E.
  - apply has_column_lookup in E. destruct E as [labels E]. rewrite E.
    unfold column, set_column. simpl. rewrite lookup_assign.
    destruct (String.eqb_spec name "Sub-Topic") as [->|_]; [|reflexivity].
    unfold column in E. now rewrite E.
  - apply lacks_column_lookup in E.
    destruct (String.eqb_spec name "Sub-Topic") as [->|_]; [|reflexivity].
    now rewrite E.
Qed.

Lemma columns_wrap_sub_topics df :
  columns (App.wrap_sub_topics df) = columns df.
Proof.
  unfold App.wrap_sub_topics.
  destruct (has_column df "Sub-Topic"); [|reflexivity].
  destruct (column df "Sub-Topic"); [|reflexivity].
  apply labels_assign.
Qed.

Lemma has_column_wrap_sub_topics df name :
  has_column (App.wrap_sub_topics df) name = has_column df name.
Proof. unfold has_column. now rewrite columns_wrap_sub_topics. Qed.

Lemma issubset_wrap_sub_topics names df :
  issubset names (App.wrap_sub_topics df) = issubset names df.
Proof.
  unfold issubset.
  induction names as [|c names IH]; simpl; [reflexivity|].
  now rewrite has_column_wrap_sub_topics, IH.
Qed.

(** With the four columns in the table, [px.scatter] finds each of them
    and the builder returns a chart with the fixed layout. *)
Lemma generate_figure_returns df company_name :
  issubset App.required_cols df = true ->
  exists traces,
    App.generate_figure df company_name
    = (Ok (Plot.mkFigure
             traces
             (App.styled_layout
                (Plot.px_layout (App.title_of company_name) (Some "Risk")
                                (Some "Impact") (Some "Sub-Topic")))),
       App.wrap_sub_topics df).
Proof.
  intros Hreq.
  rewrite <- (issubset_wrap_sub_topics _ df) in Hreq.
  rewrite issubset_forall in Hreq.
  assert (Hcol : forall c, In c App.required_cols ->
                           exists v, column (App.wrap_sub_topics df) c = Some v)
    by (intros c Hc; apply has_column_lookup; auto).
  destruct (Hcol "Risk") as [xs Hx]; [simpl; tauto|].
  destruct (Hcol "Impact") as [ys Hy]; [simpl; tauto|].
  destruct (Hcol "Sub-Topic") as [ks Hk]; [simpl; tauto|].
  destruct (Hcol "Name of IRO") as [hs Hh]; [simpl; tauto|].
  unfold App.generate_figure, Plot.scatter.
  rewrite Hx, Hy, Hk, Hh. cbn [Plot.update_traces Plot.data Plot.layout].
  eexists. reflexivity.
Qed.

(** Whatever the table, a chart that the builder returns has the fixed
    layout and the title made from the company name. *)
Lemma generate_figure_layout df company_name fig df' :
  App.generate_figure df company_name = (Ok fig, df') ->
  Plot.layout fig
  = App.styled_layout
      (Plot.px_layout (App.title_of company_name) (Some "Risk")
                      (Some "Impact") (Some "Sub-Topic"))
  /\ df' = App.wrap_sub_topics df.
Proof.
  unfold App.generate_figure, Plot.scatter.
  destruct (column (App.wrap_sub_topics df) "Risk"); [|discriminate].
  destruct (column (App.wrap_sub_topics df) "Impact"); [|discriminate].
  destruct (column (App.wrap_sub_topics df) "Name of IRO"); [|discriminate].
  destruct (column (App.wrap_sub_topics df) "Sub-Topic"); [|discriminate].
  intros H. inversion H. subst. split; reflexivity.
Qed.

Lemma generate_figure_table df company_name :
  snd (App.generate_figure df company_name) = App.wrap_sub_topics df.
Proof.
  unfold App.generate_figure.
  now destruct (Plot.scatter _ _ _ _ _ _).
Qed.

End FigureFacts.

(** C6. For every dataset holding the four columns, whatever its Impact and
    Risk values, and every company name, [generate_figure] returns a chart
    whose x and y axes both have range exactly [0, 5.1], are marked
    [fixedrange], and carry tick marks exactly at 1, 2, 3, 4, 5. *)
Theorem generate_figure_axes_locked
        (df : Frame.DataFrame) (company_name : string) :
  Frame.issubset App.required_cols df = true ->
  exists fig df',
    App.generate_figure df company_name = (Ok fig, df')
    /\ Plot.range (Plot.xaxis (Plot.layout fig)) = Some [0; 5.1]%Q
    /\ Plot.range (Plot.yaxis (Plot.layout fig)) = Some [0; 5.1]%Q
    /\ Plot.fixedrange (Plot.xaxis (Plot.layout fig)) = Some true
    /\ Plot.fixedrange (Plot.yaxis (Plot.layout fig)) = Some true
    /\ Plot.tickvals (Plot.xaxis (Plot.layout fig)) = Some [1; 2; 3; 4; 5]%Z
    /\ Plot.tickvals (Plot.yaxis (Plot.layout fig)) = Some [1; 2; 3; 4; 5]%Z.
Proof.
  intros Hreq.
  destruct (generate_figure_returns df company_name Hreq) as [traces E].
  do 2 eexists. split; [exact E|].
  cbn. repeat split; reflexivity.
Qed.

Lemma generate_figure_axes_locked_witness :
  exists fig df',
    App.generate_figure App.fallback_data "Acme" = (Ok fig, df')
    /\ Plot.range (Plot.xaxis (Plot.layout fig)) = Some [0; 5.1]%Q
    /\ Plot.range (Plot.yaxis (Plot.layout fig)) = Some [0; 5.1]%Q
    /\ Plot.fixedrange (Plot.xaxis (Plot.layout fig)) = Some true
    /\ Plot.fixedrange (Plot.yaxis (Plot.layout fig)) = Some true
    /\ Plot.tickvals (Plot.xaxis (Plot.layout fig)) = Some [1; 2; 3; 4; 5]%Z
    /\ Plot.tickvals (Plot.yaxis (Plot.layout fig)) = Some [1; 2; 3; 4; 5]%Z.
Proof.
  apply (generate_figure_axes_locked App.fallback_data "Acme").
  reflexivity.
Defined.

(** ** Start-up *)

Section Startup.
Import Frame.

Lemma unusable_test df :
  Spec.unusable (Ok df)
  <-> empty df || negb (issubset App.required_cols df) = true.
Proof.
  split.
  - intros H. inversion H as [|d He|d c Hin Hc]; subst.
    + now rewrite He.
    + apply orb_true_iff. right. apply negb_true_iff.
      destruct (issubset App.required_cols df) eqn:E; [|reflexivity].
      rewrite issubset_forall in E. rewrite (E c Hin) in Hc. discriminate.
  - intros H. apply orb_true_iff in H. destruct H as [He|Hs].
    + now constructor.
    + apply negb_true_iff in Hs. unfold issubset in Hs.
      simpl in Hs. repeat rewrite andb_false_iff in Hs.
      destruct Hs as [H|[H|[H|[H|H]]]]; try discriminate;
        eapply Spec.without_column; try exact H; simpl; tauto.
Qed.

Lemma load_default_has_columns template_read :
  issubset App.required_cols (fst (App.load_default template_read)) = true.
Proof.
  destruct template_read as [df|e]; [|reflexivity].
  unfold App.load_default.
  destruct (empty df); [reflexivity|].
  destruct (issubset App.required_cols df) eqn:E;
    [exact E | reflexivity].
Qed.

End Startup.

(** C9. At start-up, when the bundled template is absent or unreadable
    (reading it raises), empty, or lacks one of the four required columns,
    [df_default] is the built-in fallback dataset; otherwise it is the
    parsed template.  The fallback has exactly ten items and exactly three
    distinct sub-topic categories. *)
Theorem default_dataset_at_startup (template_read : result Frame.DataFrame) :
  (Spec.unusable template_read ->
   fst (App.load_default template_read) = App.fallback_data)
  /\ (~ Spec.unusable template_read ->
      exists df, template_read = Ok df
                 /\ fst (App.load_default template_read) = df)
  /\ Frame.nrows App.fallback_data = 10
  /\ Forall (fun c => length (snd c) = 10) (Frame.cols App.fallback_data)
  /\ exists labels,
      Frame.column App.fallback_data "Sub-Topic" = Some labels
      /\ length (Plot.distinct [] labels) = 3.
Proof.
  split; [|split; [|split; [|split]]].
  - destruct template_read as [df|e]; intros H; [|reflexivity].
    apply unusable_test in H. unfold App.load_default. now rewrite H.
  - destruct template_read as [df|e]; intros H.
    + exists df. split; [reflexivity|]. unfold App.load_default.
      destruct (Frame.empty df || negb (Frame.issubset App.required_cols df))
               eqn:E; [|reflexivity].
      exfalso. apply H. now apply unusable_test.
    + exfalso. apply H. constructor.
  - reflexivity.
  - repeat constructor.
  - eexists. split; reflexivity.
Qed.

Lemma default_dataset_at_startup_witness :
  fst (App.load_default (Raise (mkExn "FileNotFoundError" "No such file")))
  = App.fallback_data
  /\ fst (App.load_default (Ok Samples.headers_only)) = App.fallback_data
  /\ fst (App.load_default (Ok Samples.without_risk)) = App.fallback_data
  /\ fst (App.load_default (Ok Samples.seven_words)) = Samples.seven_words.
Proof.
  split; [|split; [|split]].
  - apply (default_dataset_at_startup (Raise _)). constructor.
  - apply (default_dataset_at_startup (Ok Samples.headers_only)).
    apply Spec.without_rows. reflexivity.
  - apply (default_dataset_at_startup (Ok Samples.without_risk)).
    apply (Spec.without_column _ "Risk"); [simpl; tauto | reflexivity].
  - destruct (proj1 (proj2 (default_dataset_at_startup
                              (Ok Samples.seven_words)))) as [df [E1 E2]].
    + intros H. apply unusable_test in H. discriminate H.
    + injection E1 as <-. exact E2.
Defined.

(** ** The process and its requests *)

Section ProcessFacts.
Import Frame.
Variable b64decode : string -> result (list Byte.byte).
Variable read_excel : list Byte.byte -> result DataFrame.

Lemma figure_of_default_state p company_name :
  App.df_default (snd (App.figure_of_default p company_name))
  = App.wrap_sub_topics (App.df_default p).
Proof.
  unfold App.figure_of_default.
  rewrite <- (generate_figure_table (App.df_default p) company_name).
  now destruct (App.generate_figure (App.df_default p) company_name).
Qed.

Lemma figure_of_default_returns p company_name :
  issubset App.required_cols (App.df_default p) = true ->
  exists fig,
    App.figure_of_default p company_name
    = (Ok fig, App.mkProcess (App.wrap_sub_topics (App.df_default p)))
    /\ fst (App.generate_figure (App.df_default p) company_name) = Ok fig
    /\ Plot.layout fig
       = App.styled_layout
           (Plot.px_layout (App.title_of company_name) (Some "Risk")
                           (Some "Impact") (Some "Sub-Topic")).
Proof.
  intros Hreq.
  destruct (generate_figure_returns _ company_name Hreq) as [traces E].
  unfold App.figure_of_default. rewrite E.
  eexists. repeat split; reflexivity.
Qed.

(** A render with an upload hands the process back as it was. *)
Lemma upload_keeps_process p contents company_name name :
  snd (App.update_graph b64decode read_excel p (Some contents)
                        company_name name) = p.
Proof.
  unfold App.update_graph.
  destruct (PyStr.split_on "," contents) as [|ct [|cs [|x rest]]];
    try reflexivity.
  destruct (b64decode cs) as [decoded|e]; [|reflexivity].
  now destruct (App.try_body read_excel decoded company_name).
Qed.

Lemma update_graph_state p contents company_name name :
  App.df_default (snd (App.update_graph b64decode read_excel p contents
                                        company_name name))
  = match contents with
    | None => App.wrap_sub_topics (App.df_default p)
    | Some _ => App.df_default p
    end.
Proof.
  destruct contents as [c|].
  - now rewrite upload_keeps_process.
  - apply figure_of_default_state.
Qed.

Lemma download_chart_state p now n_clicks company_name :
  App.df_default (snd (App.download_chart p now n_clicks company_name))
  = App.wrap_sub_topics (App.df_default p).
Proof.
  unfold App.download_chart.
  rewrite <- (figure_of_default_state
                p (PyStr.or_default company_name "")).
  now destruct (App.figure_of_default p (PyStr.or_default company_name ""))
    as [[fig|e] p'].
Qed.

(** The import succeeds whatever the template. *)
Lemma import_module_returns template_read :
  exists layout_fig p,
    App.import_module template_read = Ok (layout_fig, p)
    /\ App.df_default p
       = App.wrap_sub_topics
           (App.wrap_sub_topics (fst (App.load_default template_read))).
Proof.
  unfold App.import_module.
  pose proof (load_default_has_columns template_read) as H0.
  set (p0 := App.mkProcess (fst (App.load_default template_read))).
  destruct (figure_of_default_returns p0 "" H0) as (f1 & E1 & _).
  rewrite E1.
  set (p1 := App.mkProcess (App.wrap_sub_topics (App.df_default p0))).
  assert (H1 : issubset App.required_cols (App.df_default p1) = true)
    by (unfold p1; cbn [App.df_default];
        now rewrite issubset_wrap_sub_topics).
  destruct (figure_of_default_returns p1 "" H1) as (f2 & E2 & _).
  rewrite E2. do 2 eexists. split; reflexivity.
Qed.

(** Every process that exists names a table with the required columns. *)
Lemma reachable_has_columns p :
  App.reachable b64decode read_excel p ->
  issubset App.required_cols (App.df_default p) = true.
Proof.
  induction 1 as [r fig p E | p contents cn name _ IH | p now n cn _ IH].
  - destruct (import_module_returns r) as (f & q & E' & Hq).
    rewrite E in E'. inversion E'; subst. rewrite Hq.
    rewrite !issubset_wrap_sub_topics. apply load_default_has_columns.
  - rewrite update_graph_state. destruct contents; [exact IH|].
    now rewrite issubset_wrap_sub_topics.
  - rewrite download_chart_state. now rewrite issubset_wrap_sub_topics.
Qed.

End ProcessFacts.

(** ** Export *)

Section ExportFacts.

Lemma padded_below (width bound : nat) (digits : N -> string) :
  forallb (fun k => String.eqb (App.zero_padded width (N.of_nat k))
                               (digits (N.of_nat k)))
          (seq 0 bound) = true ->
  forall n, (N.to_nat n < bound)%nat ->
            App.zero_padded width n = digits n.
Proof.
  intros Hall n Hn. rewrite forallb_forall in Hall.
  specialize (Hall (N.to_nat n)).
  rewrite N2Nat.id in Hall. apply String.eqb_eq, Hall.
  apply in_seq. lia.
Qed.

Lemma zero_padded_year n :
  (n <= 9999)%N -> App.zero_padded 4 n = Spec.digits4 n.
Proof.
  intros Hn. apply (padded_below 4 (100 * 100)).
  - vm_compute. reflexivity.
  - lia.
Qed.

Lemma zero_padded_two n :
  (n <= 99)%N -> App.zero_padded 2 n = Spec.digits2 n.
Proof.
  intros Hn. apply (padded_below 2 100).
  - vm_compute. reflexivity.
  - lia.
Qed.

Lemma strftime_yyyymmdd d :
  Spec.calendar_date d -> App.strftime_Ymd d = Spec.yyyymmdd d.
Proof.
  intros (Hy & Hm & Hd). unfold App.strftime_Ymd, Spec.yyyymmdd.
  rewrite zero_padded_year, !zero_padded_two by lia. reflexivity.
Qed.


End ExportFacts.



(** C5, on the code.  For every click of the export button and every
    company name, the export handler builds the figure with
    [generate_figure] from the default dataset and the company name and
    wraps the request for a PNG of width 900, height 600, scale 2 in a
    function of no argument; [dcc.send_bytes] calls that function with one
    argument, so the handler raises a [TypeError] and no image is made.
    The default dataset has been rewritten by then. *)
Theorem export_raises_type_error
        (p : App.Process) (now : App.DateTime) (n_clicks : option Z)
        (company_name : option string) :
  Frame.issubset App.required_cols (App.df_default p) = true ->
  exists fig e,
    fst (App.generate_figure (App.df_default p)
                             (PyStr.or_default company_name "")) = Ok fig
    /\ App.download_chart p now n_clicks company_name
       = (Raise e, App.mkProcess (App.wrap_sub_topics (App.df_default p)))
    /\ exn_class e = "TypeError"
    /\ App.image_writer fig
       = App.NoArgument "download_chart.<locals>.<lambda>"
                        (App.mkImageCall fig "png" 900 600 2).
Proof.
  intros Hreq.
  destruct (figure_of_default_returns
              p (PyStr.or_default company_name "") Hreq)
    as (fig & E & Hfig & _).
  unfold App.download_chart. rewrite E.
  exists fig. eexists.
  split; [exact Hfig|]. split; [reflexivity|]. split; reflexivity.
Qed.

Lemma export_raises_type_error_witness :
  exists e,
    App.download_chart Samples.started Samples.march_15_2024 (Some 1%Z)
                       (Some "Acme")
    = (Raise e, Samples.started)
    /\ exn_class e = "TypeError".
Proof.
  destruct (export_raises_type_error Samples.started Samples.march_15_2024
                                     (Some 1%Z) (Some "Acme") eq_refl)
    as (fig & e & _ & Hrun & Hclass & _).
  exists e. split; [exact Hrun | exact Hclass].
Defined.

(** ** Rendering an upload *)

Section SplitFacts.

Lemma append_snoc cur c s :
  (cur ++ String c EmptyString) ++ s = cur ++ String c s.
Proof. induction cur as [|k cur IH]; simpl; congruence. Qed.

Lemma append_empty s : s ++ EmptyString = s.
Proof. induction s as [|c s IH]; simpl; congruence. Qed.

Lemma split_on_free sep s :
  PyStr.has_char sep s = false ->
  forall cur, PyStr.split_on_from sep cur s = [cur ++ s].
Proof.
  unfold PyStr.has_char.
  induction s as [|c s IH]; simpl; intros Hfree cur.
  - now rewrite append_empty.
  - apply orb_false_iff in Hfree. destruct Hfree as [Hc Hs].
    rewrite Ascii.eqb_sym, Hc, (IH Hs). now rewrite append_snoc.
Qed.

Lemma split_on_first sep a b :
  PyStr.has_char sep a = false ->
  forall cur,
    PyStr.split_on_from sep cur (a ++ String sep b)
    = (cur ++ a) :: PyStr.split_on_from sep EmptyString b.
Proof.
  unfold PyStr.has_char.
  induction a as [|c a IH]; simpl; intros Hfree cur.
  - now rewrite Ascii.eqb_refl, append_empty.
  - apply orb_false_iff in Hfree. destruct Hfree as [Hc Ha].
    rewrite Ascii.eqb_sym, Hc, (IH Ha). now rewrite append_snoc.
Qed.

(** One comma: [split] gives the media type and the payload. *)
Lemma split_data_uri mime payload :
  Spec.comma_free mime -> Spec.comma_free payload ->
  PyStr.split_on "," (Spec.data_uri mime payload) = [mime; payload].
Proof.
  intros Hm Hp. unfold PyStr.split_on, Spec.data_uri.
  change ("," ++ payload) with (String "," payload).
  rewrite (split_on_first _ _ _ Hm), (split_on_free _ _ Hp). reflexivity.
Qed.

End SplitFacts.

Section Upload.
Import Frame.
Variable b64decode : string -> result (list Byte.byte).
Variable read_excel : list Byte.byte -> result DataFrame.

(** Contents in data-URI form with a payload that decodes: the handler
    reaches the [try] statement and returns what it returns. *)
Lemma update_graph_data_uri p mime payload decoded company_name name :
  Spec.comma_free mime -> Spec.comma_free payload ->
  b64decode payload = Ok decoded ->
  App.update_graph b64decode read_excel p
                   (Some (Spec.data_uri mime payload)) company_name name
  = (Ok match App.try_body read_excel decoded company_name with
        | Ok fig => fig
        | Raise e =>
            Plot.scatter_title_only ("Error reading file: " ++ exn_str e)
        end,
     p).
Proof.
  intros Hm Hp Hd. unfold App.update_graph.
  rewrite (split_data_uri _ _ Hm Hp), Hd.
  now destruct (App.try_body read_excel decoded company_name).
Qed.

(** Outside that form the first two statements raise, before the [try]. *)
Lemma update_graph_without_comma p contents company_name name :
  PyStr.has_char "," contents = false ->
  exists e,
    App.update_graph b64decode read_excel p (Some contents)
                     company_name name = (Raise e, p)
    /\ exn_class e = "ValueError".
Proof.
  intros Hfree. unfold App.update_graph, PyStr.split_on.
  rewrite (split_on_free _ _ Hfree). eexists. split; reflexivity.
Qed.

Lemma update_graph_undecodable p mime payload e company_name name :
  Spec.comma_free mime -> Spec.comma_free payload ->
  b64decode payload = Raise e ->
  App.update_graph b64decode read_excel p
                   (Some (Spec.data_uri mime payload)) company_name name
  = (Raise e, p).
Proof.
  intros Hm Hp Hd. unfold App.update_graph.
  now rewrite (split_data_uri _ _ Hm Hp), Hd.
Qed.

Lemma zero_rows_column df name values :
  Spec.zero_rows df -> column df name = Some values -> values = [].
Proof.
  unfold Spec.zero_rows, column. destruct df as [cs]. simpl.
  induction cs as [|[k w] cs IH]; simpl; intros Hall Hlook;
    [discriminate|].
  inversion Hall as [|? ? Hw Hrest]; subst.
  destruct (String.eqb name k).
  - simpl in Hw. congruence.
  - now apply IH.
Qed.

(** C1, as the code has it.  For every upload event whose contents are in
    data-URI form (a media type, one comma, a payload) and every company
    name: when the payload base64-decodes, [update_graph] returns a chart
    and raises nothing, an exception raised while the decoded bytes are
    read or the figure is built becoming the chart's title behind
    "Error reading file: ", so that bytes [read_excel] cannot parse give a
    title starting with "Error reading file:"; when the payload does not
    decode, the decoder's exception leaves the handler, the decoding
    standing before the [try]. *)
Theorem upload_answered_once_decoded
        (p : App.Process) (mime payload : string)
        (company_name name : option string) :
  Spec.comma_free mime -> Spec.comma_free payload ->
  match b64decode payload with
  | Raise e =>
      App.update_graph b64decode read_excel p
                       (Some (Spec.data_uri mime payload)) company_name name
      = (Raise e, p)
  | Ok decoded =>
      exists fig,
        App.update_graph b64decode read_excel p
                         (Some (Spec.data_uri mime payload))
                         company_name name
        = (Ok fig, p)
        /\ (forall e,
               App.try_body read_excel decoded company_name = Raise e ->
               Plot.title (Plot.layout fig)
               = "Error reading file: " ++ exn_str e)
        /\ (forall e,
               read_excel decoded = Raise e ->
               Plot.title (Plot.layout fig)
               = "Error reading file: " ++ exn_str e
               /\ String.prefix "Error reading file:"
                                (Plot.title (Plot.layout fig)) = true)
  end.
Proof.
  intros Hm Hp. destruct (b64decode payload) as [decoded|e] eqn:Hd.
  - eexists. split; [|split].
    + exact (update_graph_data_uri p mime payload decoded company_name name
                                   Hm Hp Hd).
    + intros e He. now rewrite He.
    + intros e He. unfold App.try_body. rewrite He. split; reflexivity.
  - exact (update_graph_undecodable p mime payload e company_name name
                                    Hm Hp Hd).
Qed.

(** C4, as the code has it.  For every uploaded table that parses but
    lacks at least one of the four required columns, the render handler
    returns a chart without points whose title is the fixed text
    "Missing required columns: Name of IRO, Impact, Risk, Sub-Topic": it
    contains "Missing required columns" and names all four required
    columns, whichever of them are missing. *)
Theorem missing_columns_fixed_title
        (p : App.Process) (mime payload : string)
        (decoded : list Byte.byte) (df : DataFrame)
        (company_name name : option string) :
  Spec.comma_free mime -> Spec.comma_free payload ->
  b64decode payload = Ok decoded ->
  read_excel decoded = Ok df ->
  issubset App.required_cols df = false ->
  exists fig,
    App.update_graph b64decode read_excel p
                     (Some (Spec.data_uri mime payload)) company_name name
    = (Ok fig, p)
    /\ Plot.title (Plot.layout fig)
       = "Missing required columns: Name of IRO, Impact, Risk, Sub-Topic"
    /\ PyStr.contains "Missing required columns"
                      (Plot.title (Plot.layout fig)) = true
    /\ (forall c, In c App.required_cols ->
                  PyStr.contains c (Plot.title (Plot.layout fig)) = true)
    /\ Plot.point_counts fig = [0].
Proof.
  intros Hm Hp Hd Hr Hmiss. eexists. split.
  - exact (update_graph_data_uri p mime payload decoded company_name name
                                 Hm Hp Hd).
  - unfold App.try_body. rewrite Hr, Hmiss. cbn [negb].
    split; [reflexivity|]. split; [reflexivity|]. split; [|reflexivity].
    intros c Hc. simpl in Hc.
    destruct Hc as [<-|[<-|[<-|[<-|[]]]]]; reflexivity.
Qed.

(** C10. For every uploaded sheet that parses, has the four required
    columns and no data row, the render handler returns the figure that
    [generate_figure] builds from it, with the ordinary title and no
    point, where the start-up load replaces the same table by the
    fallback: emptiness is tested for the template only. *)
Theorem empty_upload_is_plotted
        (p : App.Process) (mime payload : string)
        (decoded : list Byte.byte) (df : DataFrame)
        (company_name name : option string) :
  Spec.comma_free mime -> Spec.comma_free payload ->
  b64decode payload = Ok decoded ->
  read_excel decoded = Ok df ->
  issubset App.required_cols df = true ->
  Spec.zero_rows df ->
  exists fig,
    App.update_graph b64decode read_excel p
                     (Some (Spec.data_uri mime payload)) company_name name
    = (Ok fig, p)
    /\ fst (App.generate_figure df (PyStr.or_default company_name ""))
       = Ok fig
    /\ Plot.title (Plot.layout fig)
       = App.title_of (PyStr.or_default company_name "")
    /\ Forall (fun n => n = 0) (Plot.point_counts fig)
    /\ empty df = true
    /\ fst (App.load_default (Ok df)) = App.fallback_data.
Proof.
  intros Hm Hp Hd Hr Hreq Hzero.
  assert (Hempty : empty df = true).
  { unfold empty. destruct df as [[|[k w] cs]]; simpl; [reflexivity|].
    inversion Hzero as [|? ? Hw _]; subst. simpl in Hw. now rewrite Hw. }
  destruct (generate_figure_returns
              df (PyStr.or_default company_name "") Hreq) as [traces E].
  eexists. split.
  - exact (update_graph_data_uri p mime payload decoded company_name name
                                 Hm Hp Hd).
  - unfold App.try_body. rewrite Hr, Hreq. cbn [negb]. rewrite E.
    cbn [fst]. repeat split; try reflexivity; try exact Hempty.
    + revert E. unfold App.generate_figure, Plot.scatter.
      rewrite !column_wrap_sub_topics. cbn [String.eqb Ascii.eqb Bool.eqb].
      destruct (column df "Risk") as [xs|]; [|discriminate].
      destruct (column df "Impact") as [ys|]; [|discriminate].
      destruct (column df "Name of IRO") as [hs|]; [|discriminate].
      destruct (column df "Sub-Topic") as [ks|] eqn:Ek; [|discriminate].
      rewrite (zero_rows_column df _ ks Hzero Ek).
      intros E. inversion E; subst. constructor.
    + unfold App.load_default. now rewrite Hempty.
Qed.

End Upload.

Lemma upload_answered_once_decoded_witness :
  Base64.b64decode "aGVsbG8="
  = Ok [Byte.x68; Byte.x65; Byte.x6c; Byte.x6c; Byte.x6f]
  /\ exists fig,
      App.update_graph Base64.b64decode Samples.read_sample Samples.started
                       (Some (Spec.data_uri Samples.xlsx_mime "aGVsbG8="))
                       (Some "Acme") (Some "notes.xlsx")
      = (Ok fig, Samples.started)
      /\ Plot.title (Plot.layout fig)
         = "Error reading file: File is not a zip file".
Proof.
  split; [reflexivity|].
  pose proof (upload_answered_once_decoded
                Base64.b64decode Samples.read_sample Samples.started
                Samples.xlsx_mime "aGVsbG8=" (Some "Acme")
                (Some "notes.xlsx") eq_refl eq_refl) as H.
  change (Base64.b64decode "aGVsbG8=")
    with (@Ok (list Byte.byte)
              [Byte.x68; Byte.x65; Byte.x6c; Byte.x6c; Byte.x6f]) in H.
  destruct H as (fig & Hrun & _ & Hparse).
  exists fig. split; [exact Hrun|].
  exact (proj1 (Hparse (mkExn "BadZipFile" "File is not a zip file") eq_refl)).
Defined.

(** C1, as stated, fails: contents in data-URI form whose payload is not
    valid base64 are a failure to decode the upload, and the handler
    answers it with the decoder's exception, not with a chart. *)
Lemma undecodable_upload_is_not_answered :
  Spec.comma_free Samples.xlsx_mime
  /\ Spec.comma_free "abc"
  /\ Base64.b64decode "abc"
     = Raise (mkExn "binascii.Error" "Incorrect padding")
  /\ fst (App.update_graph Base64.b64decode Samples.read_sample
                           Samples.started
                           (Some (Spec.data_uri Samples.xlsx_mime "abc"))
                           (Some "Acme") (Some "sheet.xlsx"))
     = Raise (mkExn "binascii.Error" "Incorrect padding")
  /\ ~ exists fig,
        fst (App.update_graph Base64.b64decode Samples.read_sample
                              Samples.started
                              (Some (Spec.data_uri Samples.xlsx_mime "abc"))
                              (Some "Acme") (Some "sheet.xlsx"))
        = Ok fig.
Proof.
  assert (Hrun : fst (App.update_graph
                        Base64.b64decode Samples.read_sample Samples.started
                        (Some (Spec.data_uri Samples.xlsx_mime "abc"))
                        (Some "Acme") (Some "sheet.xlsx"))
                 = Raise (mkExn "binascii.Error" "Incorrect padding"))
    by (vm_compute; reflexivity).
  do 3 (split; [reflexivity|]).
  split; [exact Hrun|].
  intros [fig Hfig]. rewrite Hrun in Hfig. discriminate Hfig.
Qed.

(** C4, as stated, fails: for a sheet that lacks only [Risk] the title also
    names [Impact], a column that the sheet has. *)
Lemma missing_risk_title_names_impact :
  Base64.b64decode "MQ==" = Ok [Byte.x31]
  /\ Samples.read_sample [Byte.x31] = Ok Samples.without_risk
  /\ Frame.has_column Samples.without_risk "Risk" = false
  /\ Frame.has_column Samples.without_risk "Impact" = true
  /\ exists fig,
      App.update_graph Base64.b64decode Samples.read_sample Samples.started
                       (Some (Spec.data_uri Samples.xlsx_mime "MQ=="))
                       None (Some "sheet.xlsx")
      = (Ok fig, Samples.started)
      /\ PyStr.contains "Impact" (Plot.title (Plot.layout fig)) = true
      /\ ~ Spec.lists_exactly_missing (Plot.title (Plot.layout fig))
                                      Samples.without_risk.
Proof.
  repeat (split; [reflexivity|]).
  eexists. split; [reflexivity|]. split; [reflexivity|].
  intros H. specialize (H "Impact"). simpl in H.
  destruct H as [H _]; [tauto|].
  specialize (H eq_refl). discriminate H.
Qed.

Lemma missing_columns_fixed_title_witness :
  Frame.issubset App.required_cols Samples.without_risk = false
  /\ exists fig,
      App.update_graph Base64.b64decode Samples.read_sample Samples.started
                       (Some (Spec.data_uri Samples.xlsx_mime "MQ=="))
                       None (Some "sheet.xlsx")
      = (Ok fig, Samples.started)
      /\ Plot.title (Plot.layout fig)
         = "Missing required columns: Name of IRO, Impact, Risk, Sub-Topic".
Proof.
  split; [reflexivity|].
  destruct (missing_columns_fixed_title
              Base64.b64decode Samples.read_sample Samples.started
              Samples.xlsx_mime "MQ==" [Byte.x31] Samples.without_risk
              None (Some "sheet.xlsx")
              eq_refl eq_refl eq_refl eq_refl eq_refl)
    as (fig & Hrun & Htitle & _).
  exists fig. split; assumption.
Defined.

Lemma empty_upload_is_plotted_witness :
  Samples.read_sample [Byte.x32] = Ok Samples.headers_only
  /\ exists fig,
      App.update_graph Base64.b64decode Samples.read_sample Samples.started
                       (Some (Spec.data_uri Samples.xlsx_mime "Mg=="))
                       (Some "Acme") (Some "empty.xlsx")
      = (Ok fig, Samples.started)
      /\ Plot.title (Plot.layout fig) = "<b>Acme : Double Materiality Map</b>"
      /\ fst (App.load_default (Ok Samples.headers_only)) = App.fallback_data.
Proof.
  split; [reflexivity|].
  destruct (empty_upload_is_plotted
              Base64.b64decode Samples.read_sample Samples.started
              Samples.xlsx_mime "Mg==" [Byte.x32] Samples.headers_only
              (Some "Acme") (Some "empty.xlsx")
              eq_refl eq_refl eq_refl eq_refl eq_refl)
    as (fig & Hrun & _ & Htitle & _ & _ & Hload).
  - repeat constructor.
  - exists fig. repeat split; assumption.
Defined.

(** ** Colour groups *)

Section Groups.
Import Frame.

Lemma cell_eqb_spec a b : reflect (a = b) (cell_eqb a b).
Proof.
  destruct a as [s|x|], b as [t|y|]; simpl;
    try (constructor; congruence).
  - destruct (String.eqb_spec s t); constructor; congruence.
  - destruct (Z.eqb_spec x y); constructor; congruence.
Qed.

Variable g : cell -> cell.

Lemma injective_on_incl l l' :
  incl l' l -> Spec.injective_on g l -> Spec.injective_on g l'.
Proof. intros Hincl Hinj a b Ha Hb. apply Hinj; auto. Qed.

Lemma cell_eqb_inj a b l :
  Spec.injective_on g l -> In a l -> In b l ->
  cell_eqb (g a) (g b) = cell_eqb a b.
Proof.
  intros Hinj Ha Hb.
  destruct (cell_eqb_spec a b) as [->|Hne].
  - now destruct (cell_eqb_spec (g b) (g b)).
  - destruct (cell_eqb_spec (g a) (g b)) as [Heq|_]; [|reflexivity].
    elim Hne. now apply Hinj.
Qed.

Lemma seen_map v seen l :
  Spec.injective_on g l -> In v l -> incl seen l ->
  existsb (cell_eqb (g v)) (map g seen) = existsb (cell_eqb v) seen.
Proof.
  intros Hinj Hv.
  induction seen as [|s seen IH]; simpl; intros Hincl; [reflexivity|].
  rewrite (cell_eqb_inj v s l), IH; auto with datatypes.
  intros x Hx. apply Hincl. now right.
Qed.

Lemma distinct_map l :
  forall seen all,
    Spec.injective_on g all -> incl seen all -> incl l all ->
    Plot.distinct (map g seen) (map g l) = map g (Plot.distinct seen l).
Proof.
  induction l as [|v l IH]; simpl; intros seen all Hinj Hseen Hl;
    [reflexivity|].
  assert (Hv : In v all) by (apply Hl; now left).
  assert (Hl' : incl l all) by (intros x Hx; apply Hl; now right).
  rewrite (seen_map v seen all) by assumption.
  destruct (existsb (cell_eqb v) seen).
  - now apply IH with all.
  - simpl. f_equal. apply (IH (v :: seen) all); try assumption.
    intros x [<-|Hx]; auto.
Qed.

Lemma distinct_incl l : forall seen, incl (Plot.distinct seen l) l.
Proof.
  induction l as [|v l IH]; simpl; intros seen x Hx; [exact Hx|].
  destruct (existsb (cell_eqb v) seen).
  - right. exact (IH _ _ Hx).
  - destruct Hx as [<-|Hx]; [now left | right; exact (IH _ _ Hx)].
Qed.

Lemma rows_of_map keys :
  forall k all (vals : list cell),
    Spec.injective_on g all -> In k all -> incl keys all ->
    Plot.rows_of (map g keys) (g k) vals = Plot.rows_of keys k vals.
Proof.
  unfold Plot.rows_of.
  induction keys as [|a keys IH]; simpl; intros k all vals Hinj Hk Hkeys;
    [reflexivity|].
  destruct vals as [|v vals]; [reflexivity|]. simpl.
  rewrite (cell_eqb_inj a k all) by (auto with datatypes).
  assert (Hrest : incl keys all) by (intros x Hx; apply Hkeys; now right).
  destruct (cell_eqb a k); simpl; now rewrite (IH k all vals).
Qed.

(** Renaming the colour values one to one keeps the groups: as many
    traces, with as many points each. *)
Lemma groups_renamed keys (vals : list cell) :
  Spec.injective_on g keys ->
  map (fun k => length (Plot.rows_of (map g keys) k vals))
      (Plot.distinct [] (map g keys))
  = map (fun k => length (Plot.rows_of keys k vals))
        (Plot.distinct [] keys).
Proof.
  intros Hinj.
  change (@nil cell) with (map g []) at 1.
  assert (Hnil : incl [] keys) by (intros x []).
  rewrite (distinct_map keys [] keys Hinj Hnil (incl_refl _)).
  rewrite map_map. apply map_ext_in. intros k Hk.
  apply distinct_incl in Hk.
  now rewrite (rows_of_map keys k keys vals Hinj Hk (incl_refl _)).
Qed.

End Groups.

(** ** Calls on the same table object *)

Section SameObject.
Import Frame.

Lemma wrap_sub_topics_settled df :
  Spec.settled_labels df ->
  App.wrap_sub_topics (App.wrap_sub_topics df) = App.wrap_sub_topics df.
Proof.
  intros Hs.
  unfold App.wrap_sub_topics at 1.
  rewrite has_column_wrap_sub_topics, column_wrap_sub_topics. simpl.
  destruct (has_column df "Sub-Topic") eqn:E; [|reflexivity].
  apply has_column_lookup in E. destruct E as [labels E].
  rewrite E. simpl. specialize (Hs labels E).
  unfold App.wrap_sub_topics.
  assert (Hc : has_column df "Sub-Topic" = true)
    by (apply has_column_lookup; eauto).
  rewrite Hc, E. unfold set_column. simpl. rewrite assign_twice.
  do 2 f_equal. rewrite map_map. apply map_ext_in.
  intros c Hin. rewrite Forall_forall in Hs.
  unfold App.wrap_cell. f_equal. exact (Hs c Hin).
Qed.

Lemma wrap_sub_topics_fixed df :
  Spec.fixed_labels df -> App.wrap_sub_topics df = df.
Proof.
  intros Hf. unfold App.wrap_sub_topics.
  destruct (has_column df "Sub-Topic"); [|reflexivity].
  destruct (column df "Sub-Topic") as [labels|] eqn:E; [|reflexivity].
  specialize (Hf labels E).
  assert (Hmap : map App.wrap_cell labels = labels).
  { clear E. induction Hf as [|c labels Hc _ IH]; simpl; [reflexivity|].
    unfold App.wrap_cell at 1. now rewrite Hc, IH. }
  rewrite Hmap. destruct df as [cs]. unfold set_column, column in *.
  simpl in *. now rewrite assign_same.
Qed.

Lemma nrows_wrap_sub_topics df :
  nrows (App.wrap_sub_topics df) = nrows df.
Proof.
  unfold App.wrap_sub_topics.
  destruct (has_column df "Sub-Topic"); [|reflexivity].
  destruct (column df "Sub-Topic") as [labels|] eqn:E; [|reflexivity].
  destruct df as [[|[k w] cs]]; [reflexivity|].
  unfold nrows, set_column, column in *. cbn [cols lookup assign] in *.
  destruct (String.eqb "Sub-Topic" k); cbn [cols]; [|reflexivity].
  injection E as <-. apply length_map.
Qed.

(** The second call finds the columns that the first one found. *)
Lemma scatter_after_wrap df title_text :
  match Plot.scatter (App.wrap_sub_topics df)
                     "Risk" "Impact" "Sub-Topic" "Name of IRO" title_text,
        Plot.scatter (App.wrap_sub_topics (App.wrap_sub_topics df))
                     "Risk" "Impact" "Sub-Topic" "Name of IRO" title_text
  with
  | Ok f1, Ok f2 => Plot.layout f1 = Plot.layout f2
  | Raise e1, Raise e2 => e1 = e2
  | _, _ => False
  end.
Proof.
  unfold Plot.scatter.
  rewrite !(column_wrap_sub_topics (App.wrap_sub_topics df)).
  rewrite (columns_wrap_sub_topics (App.wrap_sub_topics df)).
  cbn [String.eqb Ascii.eqb Bool.eqb].
  destruct (column (App.wrap_sub_topics df) "Risk"); [|reflexivity].
  destruct (column (App.wrap_sub_topics df) "Impact"); [|reflexivity].
  destruct (column (App.wrap_sub_topics df) "Name of IRO"); [|reflexivity].
  destruct (column (App.wrap_sub_topics df) "Sub-Topic");
    cbn [option_map]; reflexivity.
Qed.

Lemma scatter_layout df xcol ycol color hover title_text fig :
  Plot.scatter df xcol ycol color hover title_text = Ok fig ->
  Plot.layout fig
  = Plot.px_layout title_text (Some xcol) (Some ycol) (Some color).
Proof.
  unfold Plot.scatter.
  destruct (column df xcol); [|discriminate].
  destruct (column df ycol); [|discriminate].
  destruct (column df hover); [|discriminate].
  destruct (column df color); [|discriminate].
  intros H. injection H as <-. reflexivity.
Qed.

(** What the builder's chart shows of the table it plots. *)
Lemma generate_figure_structure df company_name xs ys ks hs :
  column (App.wrap_sub_topics df) "Risk" = Some xs ->
  column (App.wrap_sub_topics df) "Impact" = Some ys ->
  column (App.wrap_sub_topics df) "Sub-Topic" = Some ks ->
  column (App.wrap_sub_topics df) "Name of IRO" = Some hs ->
  Spec.structure_of (fst (App.generate_figure df company_name))
  = Some (Plot.mkStructure
            (App.title_of company_name)
            (Some App.axis_range) (Some App.axis_range)
            (length (Plot.distinct [] ks))
            (map (fun k => length (Plot.rows_of ks k xs))
                 (Plot.distinct [] ks))).
Proof.
  intros Hx Hy Hk Hh. unfold App.generate_figure, Plot.scatter.
  rewrite Hx, Hy, Hk, Hh. cbn [fst Spec.structure_of].
  unfold Plot.structure, Plot.trace_count, Plot.point_counts,
    Plot.update_traces.
  cbn [Plot.data Plot.layout]. rewrite !length_map, !map_map.
  reflexivity.
Qed.

Lemma generate_figure_raises df company_name :
  (column (App.wrap_sub_topics df) "Risk" = None
   \/ column (App.wrap_sub_topics df) "Impact" = None
   \/ column (App.wrap_sub_topics df) "Sub-Topic" = None
   \/ column (App.wrap_sub_topics df) "Name of IRO" = None) ->
  Spec.structure_of (fst (App.generate_figure df company_name)) = None.
Proof.
  intros H. unfold App.generate_figure, Plot.scatter.
  destruct (column (App.wrap_sub_topics df) "Risk"); [|reflexivity].
  destruct (column (App.wrap_sub_topics df) "Impact"); [|reflexivity].
  destruct (column (App.wrap_sub_topics df) "Name of IRO"); [|reflexivity].
  destruct (column (App.wrap_sub_topics df) "Sub-Topic"); [|reflexivity].
  destruct H as [H|[H|[H|H]]]; discriminate H.
Qed.

Lemma column_wrap_none df name :
  column df name = None -> column (App.wrap_sub_topics df) name = None.
Proof.
  intros H. rewrite column_wrap_sub_topics, H.
  now destruct (String.eqb name "Sub-Topic").
Qed.

Lemma wrapped_labels_injective df ks :
  Spec.unmerged_labels df ->
  column (App.wrap_sub_topics df) "Sub-Topic" = Some ks ->
  Spec.injective_on App.wrap_cell ks.
Proof.
  intros Hun Hk. rewrite column_wrap_sub_topics in Hk.
  cbn [String.eqb Ascii.eqb Bool.eqb] in Hk.
  destruct (column df "Sub-Topic") as [labels|] eqn:E; [|discriminate].
  injection Hk as <-. intros a' b' Ha Hb Heq.
  apply in_map_iff in Ha. destruct Ha as (a & <- & Ha).
  apply in_map_iff in Hb. destruct Hb as (b & <- & Hb).
  unfold App.wrap_cell at 1 3 in Heq. injection Heq as Heq.
  unfold App.wrap_cell. f_equal. exact (Hun labels E a b Ha Hb Heq).
Qed.

Lemma settled_unmerged df :
  Spec.settled_labels df -> Spec.unmerged_labels df.
Proof.
  intros Hs labels E a b Ha Hb Heq.
  specialize (Hs labels E). rewrite Forall_forall in Hs.
  unfold App.wrap_cell in Heq.
  now rewrite (Hs a Ha), (Hs b Hb) in Heq.
Qed.

(** When the second wrapping merges no labels, the second call shows the
    structure of the first. *)
Lemma unmerged_repeatable df company_name :
  Spec.unmerged_labels df -> Spec.repeatable df company_name.
Proof.
  intros Hun. unfold Spec.repeatable.
  pose proof (generate_figure_table df company_name) as Ht.
  destruct (App.generate_figure df company_name) as [first df'] eqn:E.
  cbn [snd] in Ht. subst df'.
  replace first with (fst (App.generate_figure df company_name))
    by now rewrite E.
  set (d1 := App.wrap_sub_topics df).
  destruct (column d1 "Risk") as [xs|] eqn:Hx;
    [|pose proof (column_wrap_none d1 _ Hx);
      rewrite !generate_figure_raises by (fold d1; tauto); reflexivity].
  destruct (column d1 "Impact") as [ys|] eqn:Hy;
    [|pose proof (column_wrap_none d1 _ Hy);
      rewrite !generate_figure_raises by (fold d1; tauto); reflexivity].
  destruct (column d1 "Sub-Topic") as [ks|] eqn:Hk;
    [|pose proof (column_wrap_none d1 _ Hk);
      rewrite !generate_figure_raises by (fold d1; tauto); reflexivity].
  destruct (column d1 "Name of IRO") as [hs|] eqn:Hh;
    [|pose proof (column_wrap_none d1 _ Hh);
      rewrite !generate_figure_raises by (fold d1; tauto); reflexivity].
  rewrite (generate_figure_structure df company_name xs ys ks hs)
    by assumption.
  rewrite (generate_figure_structure d1 company_name xs ys
                                     (map App.wrap_cell ks) hs)
    by (rewrite column_wrap_sub_topics; fold d1;
        cbn [String.eqb Ascii.eqb Bool.eqb];
        first [rewrite Hx | rewrite Hy | rewrite Hk | rewrite Hh];
        reflexivity).
  pose proof (groups_renamed App.wrap_cell ks xs
                (wrapped_labels_injective df ks Hun Hk)) as Hg.
  rewrite Hg. do 2 f_equal.
  apply (f_equal (@length nat)) in Hg. now rewrite !length_map in Hg.
Qed.

End SameObject.

(** C2, as stated, fails: the first call rewrites the labels of the table,
    and on the table it leaves behind two labels have become one, so the
    second call draws one trace of two points where the first drew two
    traces of one point. *)
Lemma second_call_merges_traces :
  Spec.structure_of (fst (App.generate_figure Samples.colliding ""))
  = Some (Plot.mkStructure "<b>Double Materiality Map</b>"
                           (Some [0; 5.1]%Q) (Some [0; 5.1]%Q) 2 [1; 1])
  /\ Spec.structure_of
       (fst (App.generate_figure
               (snd (App.generate_figure Samples.colliding "")) ""))
     = Some (Plot.mkStructure "<b>Double Materiality Map</b>"
                              (Some [0; 5.1]%Q) (Some [0; 5.1]%Q) 1 [2])
  /\ ~ Spec.repeatable Samples.colliding "".
Proof.
  split; [reflexivity|]. split; [reflexivity|].
  unfold Spec.repeatable.
  destruct (App.generate_figure Samples.colliding "") as [first df'] eqn:E.
  assert (Hf : first = fst (App.generate_figure Samples.colliding ""))
    by now rewrite E.
  assert (Hd : df' = snd (App.generate_figure Samples.colliding ""))
    by now rewrite E.
  rewrite Hf, Hd. vm_compute. discriminate.
Qed.

(** C2, as the code has it.  [generate_figure] is a function of the table's
    contents and the name: equal inputs give equal charts.  It rewrites the
    Sub-Topic column of the table it is given, so a second call on the same
    object runs on the rewritten table: it raises what the first raised or
    returns a chart with the same layout (title and axis ranges included);
    it shows the same structure (title, axis ranges, trace count, points
    per trace) when wrapping a second time makes no two different wrapped
    labels the same; and it returns the very same chart, leaving the table
    as it found it, when wrapping any label of the table a second time
    gives the same text. *)
Theorem second_call_on_same_object
        (df : Frame.DataFrame) (company_name : string) :
  (forall df2 name2,
      df2 = df -> name2 = company_name ->
      App.generate_figure df2 name2 = App.generate_figure df company_name)
  /\ match fst (App.generate_figure df company_name),
           fst (App.generate_figure
                  (snd (App.generate_figure df company_name)) company_name)
     with
     | Ok f1, Ok f2 =>
         Plot.layout f1 = Plot.layout f2
         /\ Plot.title (Plot.layout f2) = App.title_of company_name
         /\ Plot.range (Plot.xaxis (Plot.layout f2)) = Some [0; 5.1]%Q
         /\ Plot.range (Plot.yaxis (Plot.layout f2)) = Some [0; 5.1]%Q
     | Raise e1, Raise e2 => e1 = e2
     | _, _ => False
     end
  /\ (Spec.unmerged_labels df -> Spec.repeatable df company_name)
  /\ (Spec.settled_labels df ->
      App.generate_figure (snd (App.generate_figure df company_name))
                          company_name
      = App.generate_figure df company_name).
Proof.
  split; [|split; [|split; [apply unmerged_repeatable|]]].
  - intros df2 name2 -> ->. reflexivity.
  - rewrite generate_figure_table. unfold App.generate_figure.
    pose proof (scatter_after_wrap df (App.title_of company_name)) as H.
    destruct (Plot.scatter (App.wrap_sub_topics df) _ _ _ _ _) as [f1|e1];
      destruct (Plot.scatter (App.wrap_sub_topics (App.wrap_sub_topics df))
                             _ _ _ _ _) as [f2|e2] eqn:E2;
      cbn [fst]; try exact H.
    cbn [Plot.layout Plot.update_traces]. rewrite H.
    rewrite (scatter_layout _ _ _ _ _ _ _ E2).
    repeat split; reflexivity.
  - intros Hs. rewrite generate_figure_table.
    unfold App.generate_figure. now rewrite (wrap_sub_topics_settled df Hs).
Qed.

Lemma second_call_on_same_object_witness :
  Spec.settled_labels App.fallback_data
  /\ Spec.unmerged_labels App.fallback_data
  /\ Spec.repeatable App.fallback_data "Acme"
  /\ App.generate_figure
       (snd (App.generate_figure App.fallback_data "Acme")) "Acme"
     = App.generate_figure App.fallback_data "Acme".
Proof.
  assert (Hs : Spec.settled_labels App.fallback_data).
  { intros labels E. injection E as <-. repeat constructor. }
  assert (Hu : Spec.unmerged_labels App.fallback_data)
    by exact (settled_unmerged App.fallback_data Hs).
  destruct (second_call_on_same_object App.fallback_data "Acme")
    as (_ & _ & Hrepeat & Hsame).
  split; [exact Hs|]. split; [exact Hu|].
  split; [exact (Hrepeat Hu) | exact (Hsame Hs)].
Defined.

(** C3, as stated, fails: with a template whose label has seven words, the
    process left by the import holds the label wrapped twice, and the first
    render without an upload wraps it a third time. *)
Lemma render_rewrites_default_dataset :
  (exists layout_fig,
      App.import_module (Ok Samples.seven_words)
      = Ok (layout_fig, Samples.imported_seven_words))
  /\ App.reachable Base64.b64decode Samples.read_sample
                   Samples.imported_seven_words
  /\ Frame.column (App.df_default Samples.imported_seven_words) "Sub-Topic"
     = Some [Frame.Text "Climate Risk And Water<br>Use<br>In Operations"]
  /\ Frame.column
       (App.df_default
          (snd (App.update_graph Base64.b64decode Samples.read_sample
                                 Samples.imported_seven_words
                                 None None None)))
       "Sub-Topic"
     = Some [Frame.Text "Climate Risk And Water<br>Use<br>In<br>Operations"]
  /\ ~ Spec.untouched
       Samples.imported_seven_words
       (snd (App.update_graph Base64.b64decode Samples.read_sample
                              Samples.imported_seven_words None None None)).
Proof.
  assert (Himport : exists layout_fig,
             App.import_module (Ok Samples.seven_words)
             = Ok (layout_fig, Samples.imported_seven_words)).
  { destruct (import_module_returns (Ok Samples.seven_words))
      as (fig & [d] & E & Hd).
    exists fig. rewrite E. cbn [App.df_default] in Hd. now rewrite Hd. }
  split; [exact Himport|].
  split; [destruct Himport as [fig E]; exact (App.after_import _ _ _ _ _ E)|].
  split; [vm_compute; reflexivity|].
  assert (Hafter :
            Frame.column
              (App.df_default
                 (snd (App.update_graph Base64.b64decode Samples.read_sample
                                        Samples.imported_seven_words
                                        None None None)))
              "Sub-Topic"
            = Some [Frame.Text
                      "Climate Risk And Water<br>Use<br>In<br>Operations"])
    by (vm_compute; reflexivity).
  split; [exact Hafter|].
  unfold Spec.untouched. intros Heq. rewrite Heq in Hafter.
  vm_compute in Hafter. discriminate Hafter.
Qed.

(** C3, as the code has it.  Every operation on the default dataset (a
    render without an upload, an export, the layout's figure) assigns its
    Sub-Topic column anew, each value replaced by the text [wrap_label]
    gives for it, and keeps the column labels, the number of rows and every
    other column; a render of an upload does not touch it.  The dataset is
    left unchanged when each Sub-Topic value already is that text, which is
    so for the fallback dataset. *)
Theorem default_dataset_after_use
        (b64decode : string -> result (list Byte.byte))
        (read_excel : list Byte.byte -> result Frame.DataFrame)
        (p : App.Process) (now : App.DateTime) (n_clicks : option Z)
        (company_name name : option string) :
  let after := App.wrap_sub_topics (App.df_default p) in
  App.df_default (snd (App.update_graph b64decode read_excel p None
                                        company_name name)) = after
  /\ App.df_default (snd (App.download_chart p now n_clicks company_name))
     = after
  /\ App.df_default (snd (App.figure_of_default p "")) = after
  /\ (forall contents,
         snd (App.update_graph b64decode read_excel p (Some contents)
                               company_name name) = p)
  /\ Frame.columns after = Frame.columns (App.df_default p)
  /\ Frame.nrows after = Frame.nrows (App.df_default p)
  /\ (forall other, other <> "Sub-Topic" ->
                    Frame.column after other
                    = Frame.column (App.df_default p) other)
  /\ Frame.column after "Sub-Topic"
     = option_map (map App.wrap_cell)
                  (Frame.column (App.df_default p) "Sub-Topic")
  /\ (Spec.fixed_labels (App.df_default p) -> after = App.df_default p)
  /\ App.wrap_sub_topics App.fallback_data = App.fallback_data.
Proof.
  intros after. subst after.
  split; [apply (update_graph_state b64decode read_excel p None)|].
  split; [apply download_chart_state|].
  split; [apply figure_of_default_state|].
  split; [intros; apply upload_keeps_process|].
  split; [apply columns_wrap_sub_topics|].
  split; [apply nrows_wrap_sub_topics|].
  split.
  { intros other Hne. rewrite column_wrap_sub_topics.
    destruct (String.eqb_spec other "Sub-Topic"); [contradiction|reflexivity]. }
  split; [now rewrite column_wrap_sub_topics|].
  split; [apply wrap_sub_topics_fixed | reflexivity].
Qed.

Lemma default_dataset_after_use_witness :
  Spec.fixed_labels (App.df_default Samples.started)
  /\ App.df_default
       (snd (App.update_graph Base64.b64decode Samples.read_sample
                              Samples.started None (Some "Acme") None))
     = App.df_default Samples.started
  /\ Frame.column
       (App.df_default
          (snd (App.download_chart Samples.started Samples.march_15_2024
                                   (Some 1%Z) (Some "Acme"))))
       "Impact"
     = Frame.column (App.df_default Samples.started) "Impact".
Proof.
  assert (Hf : Spec.fixed_labels (App.df_default Samples.started)).
  { intros labels E. injection E as <-. repeat constructor. }
  pose proof (default_dataset_after_use
                Base64.b64decode Samples.read_sample Samples.started
                Samples.march_15_2024 (Some 1%Z) (Some "Acme") None) as H.
  cbv zeta in H.
  destruct H as (Hr & Hd & _ & _ & _ & _ & Hother & _ & Hfix & _).
  split; [exact Hf|]. split.
  - rewrite Hr. exact (Hfix Hf).
  - rewrite Hd. apply Hother. discriminate.
Defined.

(* ------------------------------------------------------------------ *)
(** * Further properties *)

(** ** Start-up and import *)

(** X1. Whatever reading the template yields, the table bound to
    [df_default] at start-up is not empty and holds the four required
    columns, and a line is printed exactly when the reading raised. *)
Theorem startup_table_is_usable (template_read : result Frame.DataFrame) :
  Frame.empty (fst (App.load_default template_read)) = false
  /\ Frame.issubset App.required_cols (fst (App.load_default template_read))
     = true
  /\ snd (App.load_default template_read)
     = match template_read with
       | Ok _ => []
       | Raise e => ["Failed to load Excel file: " ++ exn_str e]
       end.
Proof.
  split; [|split; [apply load_default_has_columns|]].
  - destruct template_read as [df|e]; [|reflexivity].
    unfold App.load_default.
    destruct (Frame.empty df) eqn:E; [reflexivity|].
    now destruct (Frame.issubset App.required_cols df).
  - destruct template_read as [df|e]; [|reflexivity].
    unfold App.load_default.
    now destruct (Frame.empty df || negb (Frame.issubset App.required_cols df)).
Qed.

(** X2. The import of the module never raises: whatever reading the
    template yields, the two calls of [generate_figure] on [df_default]
    (lines 229 and 271) return, the layout's chart carries the title
    without a company name, and the process left behind names the loaded
    table with its Sub-Topic column wrapped twice. *)
Theorem import_always_succeeds (template_read : result Frame.DataFrame) :
  exists layout_fig p,
    App.import_module template_read = Ok (layout_fig, p)
    /\ Plot.title (Plot.layout layout_fig) = "<b>Double Materiality Map</b>"
    /\ App.df_default p
       = App.wrap_sub_topics
           (App.wrap_sub_topics (fst (App.load_default template_read))).
Proof.
  unfold App.import_module.
  pose proof (load_default_has_columns template_read) as H0.
  destruct (figure_of_default_returns
              (App.mkProcess (fst (App.load_default template_read))) "" H0)
    as (f1 & E1 & _ & L1).
  rewrite E1.
  assert (H1 : Frame.issubset
                 App.required_cols
                 (App.df_default
                    (App.mkProcess
                       (App.wrap_sub_topics
                          (fst (App.load_default template_read))))) = true)
    by (cbn [App.df_default]; now rewrite issubset_wrap_sub_topics).
  destruct (figure_of_default_returns _ "" H1) as (f2 & E2 & _).
  cbn [App.df_default] in E2 |- *. rewrite E2.
  exists f1. eexists. split; [reflexivity|]. split; [|reflexivity].
  rewrite L1. reflexivity.
Qed.

(** ** Requests on a process that exists *)

(** X3. In every process that exists (the one left by the import, or one
    that render and export requests led to), a render without an upload
    returns and raises nothing; its chart carries the title made from the
    company name, and the process that follows exists too. *)
Theorem render_on_default_never_raises
        (b64decode : string -> result (list Byte.byte))
        (read_excel : list Byte.byte -> result Frame.DataFrame)
        (p : App.Process) (company_name name : option string) :
  App.reachable b64decode read_excel p ->
  exists fig p',
    App.update_graph b64decode read_excel p None company_name name
    = (Ok fig, p')
    /\ Plot.title (Plot.layout fig)
       = App.title_of (PyStr.or_default company_name "")
    /\ App.reachable b64decode read_excel p'.
Proof.
  intros Hp.
  pose proof (reachable_has_columns b64decode read_excel p Hp) as Hreq.
  destruct (figure_of_default_returns
              p (PyStr.or_default company_name "") Hreq)
    as (fig & E & _ & L).
  exists fig. eexists. split; [exact E|]. split; [now rewrite L|].
  pose proof (App.after_render b64decode read_excel p None company_name
                               name Hp) as Hnext.
  cbn [App.update_graph] in Hnext. now rewrite E in Hnext.
Qed.

Lemma render_on_default_never_raises_witness :
  App.reachable Base64.b64decode Samples.read_sample
                Samples.imported_seven_words
  /\ exists fig p',
      App.update_graph Base64.b64decode Samples.read_sample
                       Samples.imported_seven_words None (Some "Acme") None
      = (Ok fig, p')
      /\ Plot.title (Plot.layout fig) = "<b>Acme : Double Materiality Map</b>".
Proof.
  assert (Hp : App.reachable Base64.b64decode Samples.read_sample
                             Samples.imported_seven_words).
  { destruct (import_module_returns (Ok Samples.seven_words))
      as (fig & [d] & E & Hd).
    cbn [App.df_default] in Hd.
    apply (App.after_import _ _ (Ok Samples.seven_words) fig).
    now rewrite E, Hd. }
  split; [exact Hp|].
  destruct (render_on_default_never_raises
              Base64.b64decode Samples.read_sample
              Samples.imported_seven_words (Some "Acme") None Hp)
    as (fig & p' & E & Ht & _).
  exists fig, p'. split; [exact E | exact Ht].
Defined.

(** ** A sequence of requests *)

Section Sequences.
Import Frame.
Variable b64decode : string -> result (list Byte.byte).
Variable read_excel : list Byte.byte -> result DataFrame.

Lemma handle_state p rq :
  App.df_default (Session.handle b64decode read_excel p rq)
  = App.df_default p
  \/ App.df_default (Session.handle b64decode read_excel p rq)
     = App.wrap_sub_topics (App.df_default p).
Proof.
  destruct rq as [contents company_name name | now n_clicks company_name];
    cbn [Session.handle].
  - rewrite update_graph_state. destruct contents; auto.
  - right. apply download_chart_state.
Qed.

(** What every rewriting of the Sub-Topic column keeps, a sequence of
    requests keeps. *)
Lemma serve_keeps (P : DataFrame -> Prop) :
  (forall d, P d -> P (App.wrap_sub_topics d)) ->
  forall requests p,
    P (App.df_default p) ->
    P (App.df_default (Session.serve b64decode read_excel p requests)).
Proof.
  intros Hwrap. unfold Session.serve.
  induction requests as [|rq requests IH]; intros p Hp; [exact Hp|].
  cbn [fold_left]. apply IH.
  destruct (handle_state p rq) as [-> | ->]; auto.
Qed.

Lemma imported_table template_read layout_fig p :
  App.import_module template_read = Ok (layout_fig, p) ->
  App.df_default p
  = App.wrap_sub_topics
      (App.wrap_sub_topics (fst (App.load_default template_read))).
Proof.
  intros E.
  destruct (import_module_returns template_read) as (f & q & E' & Hq).
  rewrite E in E'. injection E' as _ <-. exact Hq.
Qed.

Lemma unusable_loads_fallback template_read :
  Spec.unusable template_read ->
  fst (App.load_default template_read) = App.fallback_data.
Proof.
  destruct template_read as [df|e]; intros H; [|reflexivity].
  apply unusable_test in H. unfold App.load_default. now rewrite H.
Qed.

(** X4. When the loaded table has Sub-Topic values that [wrap_label] leaves
    as they are, [df_default] equals the loaded table after the import and
    after any sequence of render and export requests; in particular, when
    the template is unusable, [df_default] equals the fallback dataset for
    the life of the process. *)
Theorem settled_default_never_changes
        (template_read : result DataFrame) (layout_fig : Plot.Figure)
        (p : App.Process) (requests : list Session.Request) :
  App.import_module template_read = Ok (layout_fig, p) ->
  (Spec.fixed_labels (fst (App.load_default template_read)) ->
   App.df_default (Session.serve b64decode read_excel p requests)
   = fst (App.load_default template_read))
  /\ (Spec.unusable template_read ->
      App.df_default (Session.serve b64decode read_excel p requests)
      = App.fallback_data).
Proof.
  intros E.
  assert (Hfixed : Spec.fixed_labels (fst (App.load_default template_read)) ->
                   App.df_default
                     (Session.serve b64decode read_excel p requests)
                   = fst (App.load_default template_read)).
  { intros Hf.
    apply (serve_keeps (fun d => d = fst (App.load_default template_read))).
    - intros d ->. now apply wrap_sub_topics_fixed.
    - rewrite (imported_table _ _ _ E).
      now rewrite !(wrap_sub_topics_fixed _ Hf). }
  split; [exact Hfixed|].
  intros Hun. rewrite <- (unusable_loads_fallback _ Hun). apply Hfixed.
  rewrite (unusable_loads_fallback _ Hun).
  intros labels El. injection El as <-. repeat constructor.
Qed.

(** X5. After the import and any sequence of render and export requests,
    [df_default] has the column labels and the number of rows of the loaded
    table, holds the four required columns, and every column other than
    Sub-Topic has the values it was loaded with. *)
Theorem default_keeps_its_shape
        (template_read : result DataFrame) (layout_fig : Plot.Figure)
        (p : App.Process) (requests : list Session.Request) :
  App.import_module template_read = Ok (layout_fig, p) ->
  let loaded := fst (App.load_default template_read) in
  let now := App.df_default (Session.serve b64decode read_excel p requests) in
  columns now = columns loaded
  /\ nrows now = nrows loaded
  /\ issubset App.required_cols now = true
  /\ (forall other, other <> "Sub-Topic" ->
                    column now other = column loaded other).
Proof.
  intros E loaded now. subst now.
  apply (serve_keeps
           (fun d => columns d = columns loaded
                     /\ nrows d = nrows loaded
                     /\ issubset App.required_cols d = true
                     /\ (forall other, other <> "Sub-Topic" ->
                                       column d other = column loaded other))).
  - intros d (Hc & Hn & Hr & Ho).
    rewrite columns_wrap_sub_topics, nrows_wrap_sub_topics,
      issubset_wrap_sub_topics.
    repeat split; try assumption.
    intros other Hne. rewrite column_wrap_sub_topics.
    destruct (String.eqb_spec other "Sub-Topic"); [contradiction|].
    now apply Ho.
  - rewrite (imported_table _ _ _ E). fold loaded.
    rewrite !columns_wrap_sub_topics, !nrows_wrap_sub_topics,
      !issubset_wrap_sub_topics.
    repeat split; try reflexivity.
    + apply load_default_has_columns.
    + intros other Hne. rewrite !column_wrap_sub_topics.
      destruct (String.eqb_spec other "Sub-Topic"); [contradiction|].
      reflexivity.
Qed.

End Sequences.

Lemma import_with_seven_words :
  exists layout_fig,
    App.import_module (Ok Samples.seven_words)
    = Ok (layout_fig, Samples.imported_seven_words).
Proof.
  destruct (import_module_returns (Ok Samples.seven_words))
    as (fig & [d] & E & Hd).
  exists fig. rewrite E. cbn [App.df_default] in Hd. now rewrite Hd.
Qed.

Lemma import_without_template :
  exists layout_fig,
    App.import_module (Raise (mkExn "FileNotFoundError" "No such file"))
    = Ok (layout_fig, Samples.started).
Proof.
  destruct (import_module_returns
              (Raise (mkExn "FileNotFoundError" "No such file")))
    as (fig & [d] & E & Hd).
  exists fig. rewrite E. cbn [App.df_default] in Hd. now rewrite Hd.
Qed.

Lemma settled_default_never_changes_witness :
  Spec.unusable (Raise (mkExn "FileNotFoundError" "No such file"))
  /\ App.df_default
       (Session.serve
          Base64.b64decode Samples.read_sample Samples.started
          [ Session.Render None (Some "Acme") None;
            Session.Export Samples.march_15_2024 (Some 1%Z) (Some "Acme");
            Session.Render (Some (Spec.data_uri Samples.xlsx_mime "Mg=="))
                           None (Some "empty.xlsx") ])
     = App.fallback_data.
Proof.
  split; [constructor|].
  destruct import_without_template as [layout_fig E].
  apply (settled_default_never_changes
           Base64.b64decode Samples.read_sample _ layout_fig _ _ E).
  constructor.
Defined.

Lemma default_keeps_its_shape_witness :
  Frame.column
    (App.df_default
       (Session.serve
          Base64.b64decode Samples.read_sample Samples.imported_seven_words
          [ Session.Render None (Some "Acme") None;
            Session.Export Samples.march_15_2024 (Some 1%Z) None ]))
    "Impact"
  = Some [Frame.Int 4].
Proof.
  destruct import_with_seven_words as [layout_fig E].
  destruct (default_keeps_its_shape
              Base64.b64decode Samples.read_sample (Ok Samples.seven_words)
              layout_fig Samples.imported_seven_words
              [ Session.Render None (Some "Acme") None;
                Session.Export Samples.march_15_2024 (Some 1%Z) None ] E)
    as (_ & _ & _ & Hother).
  rewrite Hother by discriminate. reflexivity.
Defined.

(** ** Contents that are not in data-URI form *)

Section Malformed.
Import Frame.
Variable b64decode : string -> result (list Byte.byte).
Variable read_excel : list Byte.byte -> result DataFrame.

Lemma split_on_pieces sep s :
  forall cur,
    length (PyStr.split_on_from sep cur s) = S (Shape.occurrences sep s).
Proof.
  induction s as [|c s IH]; simpl; intros cur; [reflexivity|].
  destruct (Ascii.eqb c sep); simpl; now rewrite IH.
Qed.

(** X6. Contents with no comma or with more than one comma make
    [update_graph] raise a [ValueError] from the unpacking of line 248,
    before the [try]: no error chart is returned, neither the decoder nor
    the reader is consulted, and the process is left as it was. *)
Theorem wrong_comma_count_raises
        (p : App.Process) (contents : string)
        (company_name name : option string) :
  Shape.occurrences "," contents <> 1 ->
  App.update_graph b64decode read_excel p (Some contents) company_name name
  = (Raise (App.unpack_error (S (Shape.occurrences "," contents))), p)
  /\ exn_class (App.unpack_error (S (Shape.occurrences "," contents)))
     = "ValueError".
Proof.
  intros Hn. split.
  - unfold App.update_graph.
    pose proof (split_on_pieces "," contents EmptyString) as Hlen.
    fold (PyStr.split_on "," contents) in Hlen.
    destruct (PyStr.split_on "," contents) as [|a [|b [|c rest]]];
      simpl in Hlen; try (now rewrite <- Hlen).
    elim Hn. now injection Hlen.
  - reflexivity.
Qed.

(** X7. Contents in data-URI form whose payload [b64decode] rejects make
    [update_graph] raise the decoder's exception, as line 249 stands before
    the [try]: no error chart is returned, whatever the reader would have
    made of the bytes. *)
Theorem undecodable_payload_raises
        (p : App.Process) (mime payload : string) (e : Exception)
        (company_name name : option string) :
  Spec.comma_free mime -> Spec.comma_free payload ->
  b64decode payload = Raise e ->
  App.update_graph b64decode read_excel p
                   (Some (Spec.data_uri mime payload)) company_name name
  = (Raise e, p).
Proof.
  intros Hm Hp Hd. unfold App.update_graph.
  now rewrite (split_data_uri _ _ Hm Hp), Hd.
Qed.

End Malformed.

Lemma wrong_comma_count_raises_witness :
  fst (App.update_graph Base64.b64decode Samples.read_sample Samples.started
                        (Some "no comma here") None None)
  = Raise (mkExn "ValueError"
                 "not enough values to unpack (expected 2, got 1)")
  /\ fst (App.update_graph Base64.b64decode Samples.read_sample
                           Samples.started
                           (Some "data:text/csv;base64,QSxC,Qw==") None None)
     = Raise (mkExn "ValueError" "too many values to unpack (expected 2)").
Proof.
  split.
  - rewrite (proj1 (wrong_comma_count_raises
                      Base64.b64decode Samples.read_sample Samples.started
                      "no comma here" None None
                      ltac:(simpl; discriminate))).
    reflexivity.
  - rewrite (proj1 (wrong_comma_count_raises
                      Base64.b64decode Samples.read_sample Samples.started
                      "data:text/csv;base64,QSxC,Qw==" None None
                      ltac:(simpl; discriminate))).
    reflexivity.
Defined.

Lemma undecodable_payload_raises_witness :
  Base64.b64decode "abc" = Raise (mkExn "binascii.Error" "Incorrect padding")
  /\ App.update_graph Base64.b64decode Samples.read_sample Samples.started
                      (Some (Spec.data_uri Samples.xlsx_mime "abc"))
                      (Some "Acme") None
     = (Raise (mkExn "binascii.Error" "Incorrect padding"), Samples.started).
Proof.
  split; [reflexivity|].
  apply (undecodable_payload_raises
           Base64.b64decode Samples.read_sample Samples.started
           Samples.xlsx_mime "abc"); reflexivity.
Defined.

(** ** What the chart depends on *)

Section Dependence.
Import Frame.

Lemma same_required_wrapped df1 df2 :
  Shape.same_required df1 df2 ->
  Shape.same_required (App.wrap_sub_topics df1) (App.wrap_sub_topics df2).
Proof.
  intros H c Hc. rewrite !column_wrap_sub_topics. now rewrite (H c Hc).
Qed.

(** X8. The chart that [generate_figure] returns for a table with the four
    required columns depends on those columns only: a second table that
    agrees with it on them, whatever other columns the two hold and in
    whatever order, gives the same chart for the same company name. *)
Theorem other_columns_are_ignored
        (df1 df2 : DataFrame) (company_name : string) :
  issubset App.required_cols df1 = true ->
  Shape.same_required df1 df2 ->
  exists fig,
    fst (App.generate_figure df1 company_name) = Ok fig
    /\ fst (App.generate_figure df2 company_name) = Ok fig.
Proof.
  intros Hreq H.
  destruct (generate_figure_returns df1 company_name Hreq) as [traces E].
  assert (Hsame : fst (App.generate_figure df2 company_name)
                  = fst (App.generate_figure df1 company_name)).
  { clear E traces. apply same_required_wrapped in H.
    unfold App.generate_figure, Plot.scatter.
    rewrite (H "Risk"), (H "Impact"), (H "Sub-Topic"), (H "Name of IRO")
      by (simpl; tauto).
    rewrite <- (issubset_wrap_sub_topics _ df1) in Hreq.
    rewrite issubset_forall in Hreq.
    assert (Hcol : forall c,
               In c App.required_cols ->
               exists v, column (App.wrap_sub_topics df2) c = Some v).
    { intros c Hc. rewrite <- (H c Hc). apply has_column_lookup. auto. }
    destruct (Hcol "Risk") as [xs ->]; [simpl; tauto|].
    destruct (Hcol "Impact") as [ys ->]; [simpl; tauto|].
    destruct (Hcol "Sub-Topic") as [ks ->]; [simpl; tauto|].
    destruct (Hcol "Name of IRO") as [hs ->]; [simpl; tauto|].
    reflexivity. }
  rewrite Hsame, E. eexists. split; reflexivity.
Qed.

End Dependence.

Lemma other_columns_are_ignored_witness :
  Shape.same_required Shape.annotated_fallback App.fallback_data
  /\ exists fig,
      fst (App.generate_figure Shape.annotated_fallback "Acme") = Ok fig
      /\ fst (App.generate_figure App.fallback_data "Acme") = Ok fig.
Proof.
  assert (H : Shape.same_required Shape.annotated_fallback App.fallback_data).
  { intros c Hc. simpl in Hc.
    destruct Hc as [<-|[<-|[<-|[<-|[]]]]]; reflexivity. }
  split; [exact H|].
  exact (other_columns_are_ignored Shape.annotated_fallback
                                   App.fallback_data "Acme" eq_refl H).
Defined.

(** ** More on label wrapping *)

Section Labels.
Import Frame.

Lemma split_ws_of_whitespace s :
  forallb PyStr.isspace (list_ascii_of_string s) = true ->
  PyStr.split_ws_from EmptyString s = [].
Proof.
  induction s as [|c s IH]; simpl; [reflexivity|].
  intros H. apply andb_true_iff in H. destruct H as [Hc Hs].
  rewrite Hc. simpl. now apply IH.
Qed.

Lemma blank_after_replace s :
  Shape.blank s = true ->
  forallb PyStr.isspace
          (list_ascii_of_string (PyStr.replace_char "_" " " s)) = true.
Proof.
  unfold Shape.blank.
  induction s as [|c s IH]; simpl; [reflexivity|].
  intros H. apply andb_true_iff in H. destruct H as [Hc Hs].
  rewrite (IH Hs), andb_true_r.
  destruct (Ascii.eqb c "_"); [reflexivity|].
  now rewrite orb_false_r in Hc.
Qed.

(** X9. A label whose text holds nothing but whitespace and underscores
    (the empty text included) is wrapped to the empty text. *)
Theorem blank_label_wraps_to_nothing (text : cell) :
  Shape.blank (str text) = true -> App.wrap_label text = EmptyString.
Proof.
  intros H. unfold App.wrap_label, PyStr.split_ws.
  now rewrite (split_ws_of_whitespace _ (blank_after_replace _ H)).
Qed.

Lemma replace_absent old new s :
  PyStr.has_char old s = false -> PyStr.replace_char old new s = s.
Proof.
  unfold PyStr.has_char.
  induction s as [|c s IH]; simpl; [reflexivity|].
  intros H. apply orb_false_iff in H. destruct H as [Hc Hs].
  rewrite Ascii.eqb_sym, Hc, (IH Hs). reflexivity.
Qed.

Lemma unbroken_has_no_underscore s :
  Shape.unbroken s = true -> PyStr.has_char "_" s = false.
Proof.
  unfold Shape.unbroken, PyStr.has_char.
  induction s as [|c s IH];
    cbn [list_ascii_of_string forallb existsb]; [reflexivity|].
  intros H. apply andb_true_iff in H. destruct H as [Hc Hs].
  rewrite (IH Hs), orb_false_r.
  apply negb_true_iff, orb_false_iff in Hc. destruct Hc as [_ Hc].
  now rewrite Ascii.eqb_sym.
Qed.

Lemma split_ws_of_word s :
  Shape.unbroken s = true ->
  forall cur,
    PyStr.is_empty (cur ++ s) = false ->
    PyStr.split_ws_from cur s = [cur ++ s].
Proof.
  unfold Shape.unbroken.
  induction s as [|c s IH]; simpl; intros H cur Hne.
  - rewrite append_empty in *. now rewrite Hne.
  - apply andb_true_iff in H. destruct H as [Hc Hs].
    apply negb_true_iff, orb_false_iff in Hc. destruct Hc as [Hc _].
    rewrite Hc, (IH Hs); rewrite append_snoc; [reflexivity | exact Hne].
Qed.

Lemma word_is_kept s :
  Shape.unbroken s = true -> s <> EmptyString ->
  App.wrap_label (Text s) = s.
Proof.
  intros Hu Hne. unfold App.wrap_label. cbn [str].
  rewrite (replace_absent _ _ _ (unbroken_has_no_underscore _ Hu)).
  unfold PyStr.split_ws. rewrite (split_ws_of_word _ Hu).
  - reflexivity.
  - now destruct s.
Qed.

(** X10. A text label of one word (not empty, no whitespace, no
    underscore) is wrapped to itself; so [generate_figure] hands back a
    table whose Sub-Topic values are all such labels exactly as it received
    it. *)
Theorem one_word_labels_are_kept (df : DataFrame) (company_name : string) :
  (forall labels,
      column df "Sub-Topic" = Some labels ->
      Forall (fun c => exists s, c = Text s /\ Shape.unbroken s = true
                                 /\ s <> EmptyString) labels) ->
  (forall labels c,
      column df "Sub-Topic" = Some labels -> In c labels ->
      Text (App.wrap_label c) = c)
  /\ snd (App.generate_figure df company_name) = df.
Proof.
  intros H.
  assert (Hfix : Spec.fixed_labels df).
  { intros labels E. specialize (H labels E).
    eapply Forall_impl; [|exact H].
    intros c (s & -> & Hu & Hne). now rewrite word_is_kept. }
  split.
  - intros labels c E Hin. specialize (Hfix labels E).
    rewrite Forall_forall in Hfix. now apply Hfix.
  - rewrite generate_figure_table. now apply wrap_sub_topics_fixed.
Qed.

Lemma has_char_append c a b :
  PyStr.has_char c (a ++ b) = PyStr.has_char c a || PyStr.has_char c b.
Proof.
  unfold PyStr.has_char.
  induction a as [|k a IH]; simpl; [reflexivity|].
  now rewrite IH, orb_assoc.
Qed.

Lemma has_char_concat c sep l :
  PyStr.has_char c sep = false ->
  Forall (fun w => PyStr.has_char c w = false) l ->
  PyStr.has_char c (String.concat sep l) = false.
Proof.
  intros Hsep Hall.
  induction Hall as [|w l Hw Hl IH]; [reflexivity|].
  destruct l as [|w' l]; [exact Hw|].
  change (String.concat sep (w :: w' :: l))
    with (w ++ sep ++ String.concat sep (w' :: l)).
  now rewrite !has_char_append, Hw, Hsep, IH.
Qed.

Lemma has_char_replaced old new s :
  old <> new -> PyStr.has_char old (PyStr.replace_char old new s) = false.
Proof.
  intros Hne. unfold PyStr.has_char.
  induction s as [|c s IH]; simpl; [reflexivity|].
  rewrite IH, orb_false_r.
  destruct (Ascii.eqb_spec c old) as [->|Hc].
  - apply Ascii.eqb_neq. exact Hne.
  - apply Ascii.eqb_neq. congruence.
Qed.

Lemma split_ws_words_inside c s :
  forall cur,
    PyStr.has_char c cur = false -> PyStr.has_char c s = false ->
    Forall (fun w => PyStr.has_char c w = false)
           (PyStr.split_ws_from cur s).
Proof.
  induction s as [|k s IH]; simpl; intros cur Hcur Hs.
  - destruct (PyStr.is_empty cur); repeat constructor. exact Hcur.
  - assert (Hk : Ascii.eqb c k = false /\ PyStr.has_char c s = false).
    { unfold PyStr.has_char in Hs. simpl in Hs.
      now apply orb_false_iff in Hs. }
    destruct Hk as [Hk Hs'].
    destruct (PyStr.isspace k).
    + destruct (PyStr.is_empty cur); [|constructor; [exact Hcur|]];
        now apply IH.
    + apply IH; [|exact Hs'].
      rewrite has_char_append, Hcur. unfold PyStr.has_char. simpl.
      now rewrite Hk.
Qed.

Lemma wrap_label_wrapped text :
  App.wrap_label text = Spec.wrapped (str text).
Proof.
  unfold App.wrap_label, Spec.wrapped, PyStr.join.
  rewrite <- wrap_label_lines. now rewrite map_map.
Qed.

(** X11. The text that [wrap_label] returns holds no underscore, whatever
    the label. *)
Theorem wrapped_label_has_no_underscore (text : cell) :
  PyStr.has_char "_" (App.wrap_label text) = false.
Proof.
  rewrite wrap_label_wrapped. unfold Spec.wrapped.
  set (words := PyStr.split_ws (PyStr.replace_char "_" " " (str text))).
  assert (Hwords : Forall (fun w => PyStr.has_char "_" w = false) words).
  { apply split_ws_words_inside; [reflexivity|].
    apply has_char_replaced. discriminate. }
  destruct (lines_of_four_shape (length words) words (le_n _))
    as (Hconcat & _ & _).
  apply has_char_concat; [reflexivity|].
  apply Forall_forall. intros line Hline.
  apply in_map_iff in Hline. destruct Hline as (ws & <- & Hws).
  apply has_char_concat; [reflexivity|].
  apply Forall_forall. intros w Hw.
  rewrite Forall_forall in Hwords. apply Hwords.
  rewrite <- Hconcat. apply in_concat. eauto.
Qed.

End Labels.

Lemma blank_label_wraps_to_nothing_witness :
  Shape.blank (Frame.str (Frame.Text " _  __ ")) = true
  /\ App.wrap_label (Frame.Text " _  __ ") = EmptyString.
Proof.
  split; [reflexivity|].
  apply (blank_label_wraps_to_nothing (Frame.Text " _  __ ")). reflexivity.
Defined.

Lemma one_word_labels_are_kept_witness :
  snd (App.generate_figure App.fallback_data "Acme") = App.fallback_data.
Proof.
  apply (one_word_labels_are_kept App.fallback_data "Acme").
  intros labels E. injection E as <-.
  repeat (constructor;
          [eexists; split; [reflexivity|]; split;
           [reflexivity | discriminate]|]).
  constructor.
Defined.

Section LineCount.
Import Frame.

Lemma lines_of_four_count n :
  forall words : list string,
    length words <= n ->
    length (Spec.lines_of_four words) = (length words + 3) / 4.
Proof.
  induction n as [|n IH]; intros words Hn.
  - destruct words; [reflexivity | simpl in Hn; lia].
  - destruct words as [|a [|b [|c [|d rest]]]]; try reflexivity.
    change (Spec.lines_of_four (a :: b :: c :: d :: rest))
      with ([a; b; c; d] :: Spec.lines_of_four rest).
    cbn [length]. rewrite IH by (simpl in Hn; lia).
    replace (S (S (S (S (length rest)))) + 3)
      with (length rest + 3 + 1 * 4) by lia.
    rewrite Nat.div_add by lia. lia.
Qed.

(** X12. The comprehension of line 52 cuts a list of [n] words into
    ceil(n/4) lines, so [wrap_label] puts ceil(n/4) - 1 line breaks between
    the words of a label. *)
Theorem label_line_count (text : cell) :
  let words := PyStr.split_ws (PyStr.replace_char "_" " " (str text)) in
  let lines :=
    map (fun i => PyStr.join " " (PyStr.slice words i (i + 4)))
        (PyStr.range 0 (length words) 4) in
  App.wrap_label text = PyStr.join "<br>" lines
  /\ length lines = (length words + 3) / 4.
Proof.
  intros words lines. split; [reflexivity|].
  subst lines. rewrite <- (map_map _ (PyStr.join " ")), wrap_label_lines.
  rewrite length_map.
  exact (lines_of_four_count (length words) words (le_n _)).
Qed.

(** X13. A label of at most four words is put on one line: its words
    joined by single spaces, without a line break. *)
Theorem short_label_on_one_line (text : cell) :
  length (PyStr.split_ws (PyStr.replace_char "_" " " (str text))) <= 4 ->
  App.wrap_label text
  = PyStr.join " " (PyStr.split_ws (PyStr.replace_char "_" " " (str text))).
Proof.
  intros Hlen. rewrite wrap_label_wrapped. unfold Spec.wrapped.
  destruct (PyStr.split_ws (PyStr.replace_char "_" " " (str text)))
    as [|a [|b [|c [|d [|e rest]]]]]; try reflexivity.
  simpl in Hlen. lia.
Qed.

End LineCount.

Lemma short_label_on_one_line_witness :
  App.wrap_label (Frame.Text "  Supply_Chain  Ethics ")
  = "Supply Chain Ethics".
Proof.
  rewrite (short_label_on_one_line (Frame.Text "  Supply_Chain  Ethics "))
    by (vm_compute; lia).
  reflexivity.
Defined.

(** ** Rows and traces *)

Section Rows.
Import Frame.







End Rows.


(** ** Legend entries *)

Section Legend.
Import Frame.

Lemma distinct_fresh l :
  forall seen k,
    In k (Plot.distinct seen l) -> existsb (cell_eqb k) seen = false.
Proof.
  induction l as [|v l IH]; intros seen k Hk; [destruct Hk|].
  cbn [Plot.distinct] in Hk.
  destruct (existsb (cell_eqb v) seen) eqn:Hv; [now apply IH|].
  destruct Hk as [<- | Hk]; [exact Hv|].
  apply IH in Hk. cbn [existsb] in Hk.
  now apply orb_false_iff in Hk.
Qed.

Lemma distinct_nodup l : forall seen, NoDup (Plot.distinct seen l).
Proof.
  induction l as [|v l IH]; intros seen; [constructor|].
  cbn [Plot.distinct].
  destruct (existsb (cell_eqb v) seen); [apply IH|].
  constructor; [|apply IH].
  intros Hin. apply distinct_fresh in Hin. cbn [existsb] in Hin.
  apply orb_false_iff in Hin. destruct Hin as [Hvv _].
  destruct (cell_eqb_spec v v); [discriminate | congruence].
Qed.

Lemma distinct_complete l :
  forall seen k,
    In k l ->
    existsb (cell_eqb k) seen = true \/ In k (Plot.distinct seen l).
Proof.
  induction l as [|v l IH]; intros seen k Hk; [destruct Hk|].
  cbn [Plot.distinct].
  destruct (existsb (cell_eqb v) seen) eqn:Hv.
  - destruct Hk as [<- | Hk]; [now left | now apply IH].
  - destruct Hk as [<- | Hk]; [right; now left|].
    destruct (IH (v :: seen) k Hk) as [H | H]; [|right; now right].
    cbn [existsb] in H. apply orb_true_iff in H. destruct H as [H | H].
    + destruct (cell_eqb_spec k v) as [->|]; [|discriminate].
      right. now left.
    + now left.
Qed.

Lemma generate_figure_names df company_name xs ys ks hs :
  column (App.wrap_sub_topics df) "Risk" = Some xs ->
  column (App.wrap_sub_topics df) "Impact" = Some ys ->
  column (App.wrap_sub_topics df) "Sub-Topic" = Some ks ->
  column (App.wrap_sub_topics df) "Name of IRO" = Some hs ->
  exists fig,
    fst (App.generate_figure df company_name) = Ok fig
    /\ map Plot.name (Plot.data fig) = map str (Plot.distinct [] ks).
Proof.
  intros Hx Hy Hk Hh. unfold App.generate_figure, Plot.scatter.
  rewrite Hx, Hy, Hk, Hh. eexists. split; [reflexivity|].
  unfold Plot.update_traces. cbn [Plot.data]. rewrite !map_map.
  reflexivity.
Qed.

(** X15. For a table with the four required columns, the traces of the
    chart are named by the wrapped Sub-Topic labels: no two traces have the
    same name, and a text names a trace exactly when it is the wrapped
    label of some row. *)
Theorem one_trace_per_wrapped_label (df : DataFrame) (company_name : string) :
  issubset App.required_cols df = true ->
  exists fig labels,
    fst (App.generate_figure df company_name) = Ok fig
    /\ column df "Sub-Topic" = Some labels
    /\ NoDup (map Plot.name (Plot.data fig))
    /\ (forall s, In s (map Plot.name (Plot.data fig))
                  <-> exists c, In c labels /\ s = App.wrap_label c).
Proof.
  intros Hreq.
  pose proof Hreq as Hreq'.
  rewrite <- (issubset_wrap_sub_topics _ df) in Hreq'.
  rewrite issubset_forall in Hreq'.
  assert (Hcol : forall c, In c App.required_cols ->
                           exists v, column (App.wrap_sub_topics df) c = Some v)
    by (intros c Hc; apply has_column_lookup; auto).
  destruct (Hcol "Risk") as [xs Hx]; [simpl; tauto|].
  destruct (Hcol "Impact") as [ys Hy]; [simpl; tauto|].
  destruct (Hcol "Sub-Topic") as [ks Hk]; [simpl; tauto|].
  destruct (Hcol "Name of IRO") as [hs Hh]; [simpl; tauto|].
  destruct (generate_figure_names df company_name xs ys ks hs Hx Hy Hk Hh)
    as (fig & E & Hnames).
  rewrite column_wrap_sub_topics in Hk.
  cbn [String.eqb Ascii.eqb Bool.eqb] in Hk.
  destruct (column df "Sub-Topic") as [labels|]; [|discriminate].
  injection Hk as <-.
  exists fig, labels. split; [exact E|]. split; [reflexivity|].
  rewrite Hnames. split.
  - apply NoDup_map_NoDup_ForallPairs; [|apply distinct_nodup].
    intros a b Ha Hb Heq.
    apply distinct_incl, in_map_iff in Ha. destruct Ha as (ca & <- & _).
    apply distinct_incl, in_map_iff in Hb. destruct Hb as (cb & <- & _).
    unfold App.wrap_cell in *. cbn [str] in Heq. now rewrite Heq.
  - intros s. split.
    + intros Hs. apply in_map_iff in Hs. destruct Hs as (k & <- & Hin).
      apply distinct_incl, in_map_iff in Hin.
      destruct Hin as (c & <- & Hc). exists c. split; [exact Hc|reflexivity].
    + intros (c & Hc & ->).
      change (App.wrap_label c) with (str (App.wrap_cell c)).
      apply in_map.
      destruct (distinct_complete (map App.wrap_cell labels) []
                                  (App.wrap_cell c) (in_map _ _ _ Hc))
        as [H | H]; [discriminate | exact H].
Qed.

End Legend.

Lemma one_trace_per_wrapped_label_witness :
  exists fig,
    fst (App.generate_figure App.fallback_data "Acme") = Ok fig
    /\ NoDup (map Plot.name (Plot.data fig))
    /\ In "Governance" (map Plot.name (Plot.data fig)).
Proof.
  destruct (one_trace_per_wrapped_label App.fallback_data "Acme" eq_refl)
    as (fig & labels & E & Hl & Hnodup & Hnames).
  exists fig. split; [exact E|]. split; [exact Hnodup|].
  apply Hnames. exists (Frame.Text "Governance").
  injection Hl as <-. split; [simpl; tauto | reflexivity].
Defined.

(** ** An upload that is a valid sheet *)

Section ValidUpload.
Import Frame.
Variable b64decode : string -> result (list Byte.byte).
Variable read_excel : list Byte.byte -> result DataFrame.

(** X16. For contents in data-URI form whose payload decodes to a sheet
    with the four required columns, the render handler returns the chart
    that [generate_figure] builds from that sheet and the company name,
    with the ordinary title and the fixed layout; the chart is the same
    whatever table [df_default] names, and the process is left as it
    was. *)
Theorem valid_upload_is_plotted
        (mime payload : string) (decoded : list Byte.byte) (df : DataFrame)
        (company_name name : option string) :
  Spec.comma_free mime -> Spec.comma_free payload ->
  b64decode payload = Ok decoded ->
  read_excel decoded = Ok df ->
  issubset App.required_cols df = true ->
  exists fig,
    fst (App.generate_figure df (PyStr.or_default company_name "")) = Ok fig
    /\ (forall p,
           App.update_graph b64decode read_excel p
                            (Some (Spec.data_uri mime payload))
                            company_name name
           = (Ok fig, p))
    /\ Plot.title (Plot.layout fig)
       = App.title_of (PyStr.or_default company_name "")
    /\ Plot.width (Plot.layout fig) = Some 850%Z
    /\ Plot.height (Plot.layout fig) = Some 620%Z.
Proof.
  intros Hm Hp Hd Hr Hreq.
  destruct (generate_figure_returns
              df (PyStr.or_default company_name "") Hreq) as [traces E].
  eexists. split; [now rewrite E|].
  split; [|repeat split; reflexivity].
  intros p.
  rewrite (update_graph_data_uri b64decode read_excel p mime payload decoded
                                 company_name name Hm Hp Hd).
  unfold App.try_body. rewrite Hr, Hreq. cbn [negb]. now rewrite E.
Qed.

End ValidUpload.

Lemma valid_upload_is_plotted_witness :
  exists fig,
    App.update_graph Base64.b64decode (fun _ => Ok App.fallback_data)
                     Samples.imported_seven_words
                     (Some (Spec.data_uri Samples.xlsx_mime "aGVsbG8="))
                     (Some "Acme") (Some "book.xlsx")
    = (Ok fig, Samples.imported_seven_words)
    /\ Plot.title (Plot.layout fig) = "<b>Acme : Double Materiality Map</b>".
Proof.
  destruct (valid_upload_is_plotted
              Base64.b64decode (fun _ => Ok App.fallback_data)
              Samples.xlsx_mime "aGVsbG8="
              [Byte.x68; Byte.x65; Byte.x6c; Byte.x6c; Byte.x6f]
              App.fallback_data (Some "Acme") (Some "book.xlsx")
              eq_refl eq_refl eq_refl eq_refl eq_refl)
    as (fig & _ & Hrun & Htitle & _).
  exists fig. split; [apply Hrun | exact Htitle].
Defined.

(** ** Labels of at most four words *)

Section ShortLabels.
Import Frame.

Lemma split_ws_word_ahead w :
  forallb (fun c => negb (PyStr.isspace c)) (list_ascii_of_string w) = true ->
  forall cur rest,
    PyStr.split_ws_from cur (w ++ rest)
    = PyStr.split_ws_from (cur ++ w) rest.
Proof.
  induction w as [|c w IH]; cbn [list_ascii_of_string forallb];
    intros Hw cur rest.
  - now rewrite append_empty.
  - apply andb_true_iff in Hw. destruct Hw as [Hc Hw].
    apply negb_true_iff in Hc.
    change (String c w ++ rest) with (String c (w ++ rest)).
    cbn [PyStr.split_ws_from]. rewrite Hc, (IH Hw). now rewrite append_snoc.
Qed.

Lemma split_ws_gives_words s :
  forall cur,
    forallb (fun c => negb (PyStr.isspace c)) (list_ascii_of_string cur)
    = true ->
    Forall (fun w =>
              forallb (fun c => negb (PyStr.isspace c))
                      (list_ascii_of_string w) = true
              /\ PyStr.is_empty w = false)
           (PyStr.split_ws_from cur s).
Proof.
  induction s as [|k s IH]; cbn [PyStr.split_ws_from]; intros cur Hcur.
  - destruct (PyStr.is_empty cur) eqn:E; repeat constructor; assumption.
  - destruct (PyStr.isspace k) eqn:Hk.
    + destruct (PyStr.is_empty cur) eqn:E.
      * now apply IH.
      * constructor; [split; assumption | now apply IH].
    + apply IH.
      assert (Happ : forall a b,
                 list_ascii_of_string (a ++ b)
                 = (list_ascii_of_string a ++ list_ascii_of_string b)%list)
        by (induction a as [|x a IHa]; intros b; simpl; congruence).
      rewrite Happ, forallb_app, Hcur. cbn. now rewrite Hk.
Qed.

(** Joining words with single spaces and splitting again gives the
    words. *)
Lemma split_ws_join ws :
  Forall (fun w =>
            forallb (fun c => negb (PyStr.isspace c))
                    (list_ascii_of_string w) = true
            /\ PyStr.is_empty w = false) ws ->
  PyStr.split_ws (PyStr.join " " ws) = ws.
Proof.
  unfold PyStr.split_ws, PyStr.join.
  induction 1 as [|w ws [Hw Hne] Hws IH]; [reflexivity|].
  destruct ws as [|w' ws].
  - cbn [String.concat]. rewrite <- (append_empty w) at 1.
    rewrite (split_ws_word_ahead w Hw). cbn [PyStr.split_ws_from].
    change (EmptyString ++ w) with w. now rewrite Hne.
  - change (String.concat " " (w :: w' :: ws))
      with (w ++ String " " (String.concat " " (w' :: ws))).
    rewrite (split_ws_word_ahead w Hw).
    change (EmptyString ++ w) with w.
    cbn [PyStr.split_ws_from].
    change (PyStr.isspace " ") with true. cbn iota.
    now rewrite Hne, IH.
Qed.

Lemma short_label_settles text :
  length (PyStr.split_ws (PyStr.replace_char "_" " " (str text))) <= 4 ->
  Spec.settled text.
Proof.
  intros Hlen. unfold Spec.settled.
  set (words := PyStr.split_ws (PyStr.replace_char "_" " " (str text))) in *.
  assert (Hone : App.wrap_label text = PyStr.join " " words).
  { rewrite wrap_label_wrapped. unfold Spec.wrapped. fold words.
    destruct words as [|a [|b [|c [|d [|e rest]]]]]; try reflexivity.
    simpl in Hlen. lia. }
  assert (Hwords : PyStr.split_ws
                     (PyStr.replace_char "_" " " (App.wrap_label text))
                   = words).
  { rewrite Hone, replace_absent.
    - apply split_ws_join. apply split_ws_gives_words. reflexivity.
    - apply has_char_concat; [reflexivity|].
      apply split_ws_words_inside; [reflexivity|].
      apply has_char_replaced. discriminate. }
  rewrite Hone at 2. rewrite wrap_label_wrapped. unfold Spec.wrapped.
  cbn [str]. rewrite Hwords.
  destruct words as [|a [|b [|c [|d [|e rest]]]]]; try reflexivity.
  simpl in Hlen. lia.
Qed.

(** X17. Wrapping a label of at most four words a second time gives the
    same text; so for a table whose Sub-Topic labels all have at most four
    words, a second call of [generate_figure] on the same table object
    returns the chart of the first call and leaves the table as the first
    call left it. *)
Theorem short_labels_make_calls_repeatable
        (df : DataFrame) (company_name : string) :
  (forall labels,
      column df "Sub-Topic" = Some labels ->
      Forall (fun c =>
                length (PyStr.split_ws
                          (PyStr.replace_char "_" " " (str c))) <= 4)
             labels) ->
  (forall labels c,
      column df "Sub-Topic" = Some labels -> In c labels ->
      App.wrap_label (Text (App.wrap_label c)) = App.wrap_label c)
  /\ App.generate_figure (snd (App.generate_figure df company_name))
                         company_name
     = App.generate_figure df company_name.
Proof.
  intros Hshort.
  assert (Hs : Spec.settled_labels df).
  { intros labels E. specialize (Hshort labels E).
    eapply Forall_impl; [|exact Hshort].
    intros c Hc. now apply short_label_settles. }
  split.
  - intros labels c E Hin. specialize (Hs labels E).
    rewrite Forall_forall in Hs. now apply Hs.
  - rewrite generate_figure_table. unfold App.generate_figure.
    now rewrite (wrap_sub_topics_settled df Hs).
Qed.

End ShortLabels.

Lemma short_labels_make_calls_repeatable_witness :
  App.generate_figure (snd (App.generate_figure Samples.without_risk ""))
                      ""
  = App.generate_figure Samples.without_risk ""
  /\ App.generate_figure (snd (App.generate_figure App.fallback_data "Acme"))
                         "Acme"
     = App.generate_figure App.fallback_data "Acme".
Proof.
  split.
  - apply (short_labels_make_calls_repeatable Samples.without_risk "").
    intros labels E. injection E as <-.
    repeat (constructor; [vm_compute; lia|]). constructor.
  - apply (short_labels_make_calls_repeatable App.fallback_data "Acme").
    intros labels E. injection E as <-.
    repeat (constructor; [vm_compute; lia|]). constructor.
Defined.

(** ** The name of the exported file *)

Section FileName.

Lemma list_ascii_of_append a b :
  list_ascii_of_string (a ++ b)
  = (list_ascii_of_string a ++ list_ascii_of_string b)%list.
Proof. induction a as [|x a IH]; simpl; congruence. Qed.

Lemma lower_char_not_capital c :
  Shape.ascii_capital (PyStr.lower_char c) = false.
Proof. destruct c as [[] [] [] [] [] [] [] []]; reflexivity. Qed.

Lemma slug_characters s :
  forallb (fun c => negb (Ascii.eqb c " " || Shape.ascii_capital c))
          (list_ascii_of_string
             (PyStr.replace_char " " "_" (PyStr.lower s))) = true.
Proof.
  induction s as [|c s IH];
    cbn [PyStr.lower PyStr.replace_char list_ascii_of_string forallb];
    [reflexivity|].
  rewrite IH, andb_true_r.
  destruct (Ascii.eqb_spec (PyStr.lower_char c) " ") as [E|E];
    [reflexivity|].
  rewrite lower_char_not_capital, orb_false_r.
  apply negb_true_iff, Ascii.eqb_neq. exact E.
Qed.

Lemma digit_character n :
  negb (Ascii.eqb (Spec.digit n) " " || Shape.ascii_capital (Spec.digit n))
  = true.
Proof.
  unfold Spec.digit.
  assert (Hlt : (n mod 10 < 10)%N) by (apply N.mod_lt; discriminate).
  revert Hlt. generalize (n mod 10)%N. intros k Hlt.
  assert (H : (k = 0 \/ k = 1 \/ k = 2 \/ k = 3 \/ k = 4 \/ k = 5
               \/ k = 6 \/ k = 7 \/ k = 8 \/ k = 9)%N) by lia.
  destruct H as [-> | [-> | [-> | [-> | [-> | [-> | [-> | [-> | [-> | ->]]]]]]]]];
    reflexivity.
Qed.

(** X18. For every company name and every date with a four-digit year, the
    name of the exported file holds no space and no capital letter A..Z,
    whatever the company name holds. *)
Theorem export_filename_characters
        (company_name : option string) (now : App.DateTime) :
  Spec.calendar_date now ->
  forallb (fun c => negb (Ascii.eqb c " " || Shape.ascii_capital c))
          (list_ascii_of_string (App.export_filename company_name now))
  = true.
Proof.
  intros Hdate. unfold App.export_filename.
  rewrite (strftime_yyyymmdd now Hdate).
  rewrite !list_ascii_of_append, !forallb_app, slug_characters.
  unfold Spec.yyyymmdd, Spec.digits4, Spec.digits2.
  cbn [append list_ascii_of_string forallb].
  rewrite !digit_character. reflexivity.
Qed.

End FileName.

Lemma export_filename_characters_witness :
  PyStr.has_char " " (App.export_filename (Some "Acme Holding AG")
                                          Samples.march_15_2024) = false
  /\ forallb (fun c => negb (Ascii.eqb c " " || Shape.ascii_capital c))
             (list_ascii_of_string
                (App.export_filename (Some "Acme Holding AG")
                                     Samples.march_15_2024)) = true.
Proof.
  split; [reflexivity|].
  apply (export_filename_characters (Some "Acme Holding AG")
                                    Samples.march_15_2024).
  unfold Spec.calendar_date. simpl. lia.
Defined.

(** ** The three answers to an upload *)

Section Outcomes.
Import Frame.
Variable b64decode : string -> result (list Byte.byte).
Variable read_excel : list Byte.byte -> result DataFrame.

(** X19. For contents in data-URI form whose payload decodes, the chart
    that the render handler returns is of one of three kinds, decided by
    the reader alone: the reader raised and the title is
    "Error reading file: " with its message; the sheet lacks a required
    column and the title is the fixed missing-columns text; or the sheet has
    the four columns and the chart is the one [generate_figure] builds.  A
    title starting with "Error reading file: " is returned exactly when the
    reader raised: building the figure of a sheet that passed the column
    test never raises. *)
Theorem upload_outcomes
        (p : App.Process) (mime payload : string) (decoded : list Byte.byte)
        (company_name name : option string) :
  Spec.comma_free mime -> Spec.comma_free payload ->
  b64decode payload = Ok decoded ->
  exists fig,
    App.update_graph b64decode read_excel p
                     (Some (Spec.data_uri mime payload)) company_name name
    = (Ok fig, p)
    /\ match read_excel decoded with
       | Raise e =>
           fig = Plot.scatter_title_only ("Error reading file: " ++ exn_str e)
       | Ok df =>
           if issubset App.required_cols df
           then fst (App.generate_figure
                       df (PyStr.or_default company_name "")) = Ok fig
           else fig = Plot.scatter_title_only App.missing_columns_title
       end
    /\ (String.prefix "Error reading file: " (Plot.title (Plot.layout fig))
        = true
        <-> exists e, read_excel decoded = Raise e).
Proof.
  intros Hm Hp Hd. eexists. split.
  - exact (update_graph_data_uri b64decode read_excel p mime payload decoded
                                 company_name name Hm Hp Hd).
  - unfold App.try_body.
    destruct (read_excel decoded) as [df|e].
    + destruct (issubset App.required_cols df) eqn:Hreq; cbn [negb].
      * destruct (generate_figure_returns
                    df (PyStr.or_default company_name "") Hreq)
          as [traces E].
        rewrite E. cbn [fst]. split; [reflexivity|].
        split; [|intros [e He]; discriminate].
        cbn [Plot.layout Plot.title App.styled_layout Plot.px_layout].
        unfold App.title_of.
        destruct (PyStr.truthy (PyStr.or_default company_name ""));
          discriminate.
      * split; [reflexivity|].
        split; [discriminate | intros [e He]; discriminate].
    + split; [reflexivity|]. split; [eauto | intros _].
      cbn [Plot.scatter_title_only Plot.layout Plot.px_layout Plot.title].
      now destruct (exn_str e).
Qed.

End Outcomes.

Lemma upload_outcomes_witness :
  exists fig,
    App.update_graph Base64.b64decode Samples.read_sample Samples.started
                     (Some (Spec.data_uri Samples.xlsx_mime "aGVsbG8="))
                     None (Some "notes.txt")
    = (Ok fig, Samples.started)
    /\ String.prefix "Error reading file: " (Plot.title (Plot.layout fig))
       = true.
Proof.
  destruct (upload_outcomes
              Base64.b64decode Samples.read_sample Samples.started
              Samples.xlsx_mime "aGVsbG8="
              [Byte.x68; Byte.x65; Byte.x6c; Byte.x6c; Byte.x6f]
              None (Some "notes.txt") eq_refl eq_refl eq_refl)
    as (fig & Hrun & _ & Hiff).
  exists fig. split; [exact Hrun|].
  apply Hiff. eexists. reflexivity.
Defined.
